(** * FreeCAD MCP server: command dispatch and feedback composition

    A shallow embedding of [src/freecad_mcp/server.py]: the XML-RPC session
    client [FreeCADConnection], the module-level connection slot managed by
    [get_freecad_connection], the screenshot guard
    [FreeCADConnection.get_active_screenshot], the envelope builder
    [add_screenshot_if_available] and the tool handlers registered with
    [@mcp.tool()].

    Python values that cross the XML-RPC boundary are dynamically typed, so
    they are embedded as a small universe [PyVal]; handler code runs in a
    state-and-exception monad [M] over the module globals, the store of list
    objects and the sequence of requests sent to the remote endpoint. *)

From Stdlib Require Import ZArith Ascii DecimalString SpecFloat.
From stdpp Require Import base option list strings gmap.

(** ** Python values *)

(** What [xmlrpc.client] unmarshals: [None] (the proxy is built with
    [allow_none=True]), booleans, integers, doubles, strings, arrays and
    structs.  A dict is kept as the sequence of its entries; a lookup takes
    the first entry with the key.  The [Binary] and [DateTime] objects that
    stand for base64 and dateTime payloads are not part of this universe:
    the remotes considered here answer with the other types only. *)
#[warnings="-register-all"] Inductive PyVal : Type :=
  | PNone
  | PBool (b : bool)
  | PInt (z : Z)
  | PFloat (f : spec_float)
  | PStr (s : string)
  | PList (l : list PyVal)
  | PDict (d : list (string * PyVal)).

Definition Dict : Type := list (string * PyVal).

Fixpoint dict_lookup (k : string) (d : Dict) : option PyVal :=
  match d with
  | [] => None
  | (k', v) :: d' => if String.eqb k k' then Some v else dict_lookup k d'
  end.

(** [bool(v)], as used by [if v:] and [not v]. *)
Definition truthy (v : PyVal) : bool :=
  match v with
  | PNone => false
  | PBool b => b
  | PInt z => negb (Z.eqb z 0)
  | PFloat (S754_zero _) => false
  | PFloat _ => true
  | PStr s => negb (String.eqb s "")
  | PList l => match l with [] => false | _ => true end
  | PDict d => match d with [] => false | _ => true end
  end.

(** [v is not None]. *)
Definition is_not_none (v : PyVal) : bool :=
  match v with PNone => false | _ => true end.

(** ** Exceptions *)

(** Every exception met here derives from [Exception]; only its class and
    [str(e)] are ever observed. *)
Inductive ExcType : Type :=
  | Exception | KeyError | TypeError | AttributeError | TransportError
  | ValidationError.

Record Exc : Type := mkExc { exc_type : ExcType; exc_str : string }.

(** ** What the interpreter and the standard library contribute

    Text that is produced by Python itself and not by this module: the
    rendering of floats and of containers by [str()], [json.dumps], and the
    wording of the interpreter's own [TypeError]/[AttributeError] and of the
    [ValidationError] of [mcp.types]. *)
Record Runtime : Type := mkRuntime {
  float_str : spec_float -> string;
  container_str : PyVal -> string;
  json_dumps : PyVal -> string;
  interp_text : ExcType -> PyVal -> string
}.

Definition int_str (z : Z) : string := NilZero.string_of_int (Z.to_int z).

Definition bool_str (b : bool) : string := if b then "True" else "False".

(** [str(v)], which is what an f-string field [{v}] renders. *)
Definition py_str (rt : Runtime) (v : PyVal) : string :=
  match v with
  | PNone => "None"
  | PBool b => bool_str b
  | PInt z => int_str z
  | PFloat f => float_str rt f
  | PStr s => s
  | PList _ | PDict _ => container_str rt v
  end.

(** ** Feedback items ([mcp.types]) *)

(** The items of [mcp.types], once built: [TextContent] with its text,
    [ImageContent] with its data and MIME type.  Building a [TextContent]
    from the [str] of an f-string cannot fail; building an [ImageContent]
    validates its data, see [new_ImageContent] below. *)
Inductive Content : Type :=
  | TextContent (text : string)
  | ImageContent (data : PyVal) (mimeType : string).

Definition is_image (c : Content) : bool :=
  match c with ImageContent _ _ => true | TextContent _ => false end.

Definition count_images (items : list Content) : nat :=
  length (List.filter is_image items).

(** ** Requests to the remote endpoint *)

Inductive Plane : Type := XY | XZ | YZ.

Definition plane_str (p : Plane) : string :=
  match p with XY => "XY" | XZ => "XZ" | YZ => "YZ" end.

Inductive ConstraintType : Type :=
  | Horizontal | Vertical | Parallel | Perpendicular | Tangent | Equal
  | Symmetric | Distance | Radius | Angle | Coincident | PointOnObject.

Definition constraint_str (c : ConstraintType) : string :=
  match c with
  | Horizontal => "Horizontal" | Vertical => "Vertical"
  | Parallel => "Parallel" | Perpendicular => "Perpendicular"
  | Tangent => "Tangent" | Equal => "Equal" | Symmetric => "Symmetric"
  | Distance => "Distance" | Radius => "Radius" | Angle => "Angle"
  | Coincident => "Coincident" | PointOnObject => "PointOnObject"
  end.

(** The source text handed to the remote [execute_code].  The handlers build
    it with f-string templates; the core never looks inside, so a script is
    kept as the template chosen together with the values interpolated into
    it. *)
Inductive Script : Type :=
  | UserCode (code : string)
  | ViewProbe
  | SketchInBody (doc_name body_name sketch_name : string) (plane : Plane)
  | SketchStandalone (doc_name sketch_name : string) (plane : Plane)
  | AddPoint (doc_name sketch_name : string) (x y : spec_float)
  | AddLine (doc_name sketch_name : string) (x1 y1 x2 y2 : spec_float)
  | AddCircle (doc_name sketch_name : string) (center_x center_y radius : spec_float)
  | AddArc (doc_name sketch_name : string)
           (center_x center_y radius start_angle end_angle : spec_float)
  | AddRectangle (doc_name sketch_name : string) (x1 y1 x2 y2 : spec_float)
  | AddPolyline (doc_name sketch_name : string)
                (points : list (spec_float * spec_float)) (closed : bool)
  | AddEllipse (doc_name sketch_name : string)
               (center_x center_y major_radius minor_radius angle : spec_float)
  | AddRegularPolygon (doc_name sketch_name : string)
                      (center_x center_y radius : spec_float) (sides : Z)
                      (angle : spec_float)
  | AddConstraint (doc_name sketch_name : string) (constraint_type : ConstraintType)
                  (geometry_indices : list Z) (point_indices : option (list Z))
                  (value : option spec_float)
  | CloseEdit (doc_name sketch_name : string).

(** One constructor per method called on [self.server]. *)
Inductive Request : Type :=
  | ReqPing
  | ReqCreateDocument (name : string)
  | ReqCreateObject (doc_name : string) (obj_data : Dict)
  | ReqEditObject (doc_name obj_name : string) (obj_data : Dict)
  | ReqDeleteObject (doc_name obj_name : string)
  | ReqInsertPartFromLibrary (relative_path : string)
  | ReqExecuteCode (code : Script)
  | ReqGetActiveScreenshot (view_name : string)
  | ReqGetObjects (doc_name : string)
  | ReqGetObject (doc_name obj_name : string)
  | ReqGetPartsList.

Definition is_ping (r : Request) : bool :=
  match r with ReqPing => true | _ => false end.

Definition is_screenshot_request (r : Request) : bool :=
  match r with ReqGetActiveScreenshot _ => true | _ => false end.

(** ** Results of running Python code *)

Inductive Outcome (A : Type) : Type :=
  | Return (a : A)
  | Raise (e : Exc).
Arguments Return {A} a.
Arguments Raise {A} e.

Definition outcome_bind {A B} (o : Outcome A) (k : A -> Outcome B) : Outcome B :=
  match o with
  | Return a => k a
  | Raise e => Raise e
  end.

Declare Scope outcome_scope.
Delimit Scope outcome_scope with outcome.
Notation "x <- o ; k" := (outcome_bind o (fun x => k))
  (at level 100, o at next level, k at level 200, right associativity) : outcome_scope.
Open Scope outcome_scope.

(** The remote endpoint: given the requests it has already received and the
    next one, it answers with a value or the call raises.  Nothing is assumed
    about it beyond the type of its answers, which range over [PyVal]. *)
Definition Remote : Type := list Request -> Request -> Outcome PyVal.

(** ** Program state *)

(** A [FreeCADConnection] object: its identity and the URL of its
    [ServerProxy]. *)
Record FreeCADConnection : Type := mkConnection {
  conn_id : nat;
  conn_url : string
}.

Inductive LogLevel : Type := INFO | WARNING | ERROR.

Record State : Type := mkState {
  only_text_feedback : bool;                    (* _only_text_feedback *)
  freecad_connection : option FreeCADConnection; (* _freecad_connection *)
  next_id : nat;                                (* identity of the next object *)
  store : gmap nat (list Content);              (* the list objects alive *)
  wire : list Request;                          (* requests sent, oldest first *)
  log : list (LogLevel * string)                (* records given to [logger] *)
}.

Definition set_connection (c : option FreeCADConnection) (s : State) : State :=
  mkState (only_text_feedback s) c (next_id s) (store s) (wire s) (log s).

Definition set_next_id (n : nat) (s : State) : State :=
  mkState (only_text_feedback s) (freecad_connection s) n (store s) (wire s) (log s).

Definition set_store (h : gmap nat (list Content)) (s : State) : State :=
  mkState (only_text_feedback s) (freecad_connection s) (next_id s) h (wire s) (log s).

Definition set_wire (w : list Request) (s : State) : State :=
  mkState (only_text_feedback s) (freecad_connection s) (next_id s) (store s) w (log s).

Definition set_log (l : list (LogLevel * string)) (s : State) : State :=
  mkState (only_text_feedback s) (freecad_connection s) (next_id s) (store s) (wire s) l.

(** ** The monad of handler code *)

Definition M (A : Type) : Type := State -> Outcome A * State.

Definition ret {A} (a : A) : M A := fun s => (Return a, s).

Definition bind {A B} (m : M A) (k : A -> M B) : M B :=
  fun s =>
    match m s with
    | (Return a, s') => k a s'
    | (Raise e, s') => (Raise e, s')
    end.

Definition raise {A} (e : Exc) : M A := fun s => (Raise e, s).

(** [try: body  except Exception as e: handler e]; what [body] did to the
    state before raising stays done. *)
Definition try_except {A} (body : M A) (handler : Exc -> M A) : M A :=
  fun s =>
    match body s with
    | (Return a, s') => (Return a, s')
    | (Raise e, s') => handler e s'
    end.

Definition lift {A} (o : Outcome A) : M A := fun s => (o, s).

Declare Scope py_scope.
Delimit Scope py_scope with py.
Notation "x <~ m ; k" := (bind m (fun x => k))
  (at level 100, m at next level, k at level 200, right associativity) : py_scope.
Notation "m ;! k" := (bind m (fun _ => k))
  (at level 100, k at level 200, right associativity) : py_scope.
Open Scope py_scope.

Definition logger (lvl : LogLevel) (msg : string) : M unit :=
  fun s => (Return tt, set_log (log s ++ [(lvl, msg)]) s).

Definition read_only_text_feedback : M bool :=
  fun s => (Return (only_text_feedback s), s).

Definition read_connection : M (option FreeCADConnection) :=
  fun s => (Return (freecad_connection s), s).

Definition write_connection (c : option FreeCADConnection) : M unit :=
  fun s => (Return tt, set_connection c s).

(** *** List objects *)

(** [response = [...]] creates a list object; its reference is what the
    variable holds. *)
Definition new_list (items : list Content) : M nat :=
  fun s =>
    (Return (next_id s),
     set_next_id (S (next_id s)) (set_store (<[next_id s := items]> (store s)) s)).

(** [response.append(item)] updates the object in place. *)
Definition list_append (r : nat) (item : Content) : M unit :=
  fun s => (Return tt, set_store (alter (fun items => items ++ [item]) r (store s)) s).

(** The items of a list object, as the caller of a handler reads them. *)
Definition list_items (r : nat) : M (list Content) :=
  fun s => (Return (default [] (store s !! r)), s).

(** ** Python operations on dynamically typed values *)

Section Server.

Variable rt : Runtime.
Variable remote : Remote.

(** [v[k]] for a string key: [KeyError] on a dict without the key,
    [TypeError] on anything that is not a dict. *)
Definition py_getitem (v : PyVal) (k : string) : Outcome PyVal :=
  match v with
  | PDict d =>
      match dict_lookup k d with
      | Some x => Return x
      | None => Raise (mkExc KeyError ("'" +:+ k +:+ "'"))
      end
  | _ => Raise (mkExc TypeError (interp_text rt TypeError v))
  end.

Definition subscript (v : PyVal) (k : string) : M PyVal := lift (py_getitem v k).

(** [v.get(k, dflt)]: only dicts have the method. *)
Definition py_get (v : PyVal) (k : string) (dflt : PyVal) : Outcome PyVal :=
  match v with
  | PDict d => Return (default dflt (dict_lookup k d))
  | _ => Raise (mkExc AttributeError (interp_text rt AttributeError v))
  end.

Definition dict_get (v : PyVal) (k : string) (dflt : PyVal) : M PyVal :=
  lift (py_get v k dflt).

Definition str_contains (needle hay : string) : bool :=
  match String.index 0 needle hay with Some _ => true | None => false end.

Definition is_str (needle : string) (v : PyVal) : bool :=
  match v with PStr s => String.eqb s needle | _ => false end.

(** [needle in v] for a string [needle]: substring test on a string,
    membership on a list, key membership on a dict, [TypeError] otherwise. *)
Definition py_contains (needle : string) (v : PyVal) : Outcome bool :=
  match v with
  | PStr s => Return (str_contains needle s)
  | PList l => Return (existsb (is_str needle) l)
  | PDict d => Return (existsb (fun kv => String.eqb (fst kv) needle) d)
  | _ => Raise (mkExc TypeError (interp_text rt TypeError v))
  end.

Definition py_in (needle : string) (v : PyVal) : M bool := lift (py_contains needle v).

(** ** FreeCADConnection *)

(** [FreeCADConnection(host, port)]: a new object around
    [ServerProxy(f"http://{host}:{port}", allow_none=True)]; building the
    proxy sends nothing. *)
Definition new_FreeCADConnection (host : string) (port : Z) : M FreeCADConnection :=
  fun s =>
    (Return (mkConnection (next_id s) ("http://" +:+ host +:+ ":" +:+ int_str port)),
     set_next_id (S (next_id s)) s).

(** A method call on [self.server]: the request goes out and the endpoint's
    answer, or the exception of the failed call, comes back. *)
Definition call_server (self : FreeCADConnection) (req : Request) : M PyVal :=
  fun s => (remote (wire s) req, set_wire (wire s ++ [req]) s).

Definition ping (self : FreeCADConnection) : M PyVal :=
  call_server self ReqPing.

Definition conn_create_document (self : FreeCADConnection) (name : string) : M PyVal :=
  call_server self (ReqCreateDocument name).

Definition conn_create_object (self : FreeCADConnection) (doc_name : string)
    (obj_data : Dict) : M PyVal :=
  call_server self (ReqCreateObject doc_name obj_data).

Definition conn_edit_object (self : FreeCADConnection) (doc_name obj_name : string)
    (obj_data : Dict) : M PyVal :=
  call_server self (ReqEditObject doc_name obj_name obj_data).

Definition conn_delete_object (self : FreeCADConnection) (doc_name obj_name : string)
    : M PyVal :=
  call_server self (ReqDeleteObject doc_name obj_name).

Definition conn_insert_part_from_library (self : FreeCADConnection)
    (relative_path : string) : M PyVal :=
  call_server self (ReqInsertPartFromLibrary relative_path).

Definition conn_execute_code (self : FreeCADConnection) (code : Script) : M PyVal :=
  call_server self (ReqExecuteCode code).

Definition conn_get_objects (self : FreeCADConnection) (doc_name : string) : M PyVal :=
  call_server self (ReqGetObjects doc_name).

Definition conn_get_object (self : FreeCADConnection) (doc_name obj_name : string)
    : M PyVal :=
  call_server self (ReqGetObject doc_name obj_name).

Definition conn_get_parts_list (self : FreeCADConnection) : M PyVal :=
  call_server self ReqGetPartsList.

Definition unsupported_view_marker : string :=
  "Current view does not support screenshots".

(** [FreeCADConnection.get_active_screenshot]: probe the active view with
    [execute_code], and ask for the screenshot unless the probe failed or
    its message carries the marker; anything raised on the way is logged
    and turned into [None]. *)
Definition get_active_screenshot (self : FreeCADConnection) (view_name : string)
    : M PyVal :=
  try_except
    (result <~ call_server self (ReqExecuteCode ViewProbe);
     success <~ dict_get result "success" (PBool false);
     if negb (truthy success) then
       logger INFO "Screenshot unavailable in current view (likely Spreadsheet or TechDraw view)";!
       ret PNone
     else
       message <~ dict_get result "message" (PStr "");
       unsupported <~ py_in unsupported_view_marker message;
       if (unsupported : bool) then
         logger INFO "Screenshot unavailable in current view (likely Spreadsheet or TechDraw view)";!
         ret PNone
       else
         call_server self (ReqGetActiveScreenshot view_name))
    (fun e =>
       logger ERROR ("Error getting screenshot: " +:+ exc_str e);!
       ret PNone).

(** ** The connection slot *)

(** [get_freecad_connection]: the slot [_freecad_connection] is filled on
    the first call and read on the later ones.  The new object is stored
    before it is pinged; only a falsy answer to the ping empties the slot
    again. *)
Definition get_freecad_connection : M FreeCADConnection :=
  cur <~ read_connection;
  match cur with
  | None =>
      c <~ new_FreeCADConnection "localhost" 9875;
      write_connection (Some c);!
      alive <~ ping c;
      if negb (truthy alive) then
        logger ERROR "Failed to ping FreeCAD";!
        write_connection None;!
        raise (mkExc Exception
                 "Failed to connect to FreeCAD. Make sure the FreeCAD addon is running.")
      else ret c
  | Some c => ret c
  end.

(** ** The envelope builder *)

Definition unavailable_note : string :=
  "Note: Visual preview is unavailable in the current view type (such as TechDraw or Spreadsheet). " +:+
  "Switch to a 3D view to see visual feedback.".

(** [ImageContent(type="image", data=data, mimeType=mimeType)]: the class
    is a validating model whose [data] field is a [str]; any other value
    makes the constructor raise [ValidationError]. *)
Definition new_ImageContent (data : PyVal) (mimeType : string) : Outcome Content :=
  match data with
  | PStr _ => Return (ImageContent data mimeType)
  | _ => Raise (mkExc ValidationError (interp_text rt ValidationError data))
  end.

(** [add_screenshot_if_available(response, screenshot)]: appends to the list
    object [response] and returns that same object.  The image item is
    built before it is appended, so a screenshot that does not validate
    leaves the list as it was. *)
Definition add_screenshot_if_available (response : nat) (screenshot : PyVal) : M nat :=
  only_text <~ read_only_text_feedback;
  (if is_not_none screenshot && negb only_text then
     item <~ lift (new_ImageContent screenshot "image/png");
     list_append response item
   else if negb only_text then
     list_append response (TextContent unavailable_note)
   else ret tt);!
  ret response.

(** ** Tool handlers

    Every handler first obtains the session, outside its [try]; the remote
    calls and the assembly of the answer are inside it.  A handler returns a
    list object; its value here is the items that object holds when the
    handler returns. *)

Definition create_document (name : string) : M (list Content) :=
  freecad <~ get_freecad_connection;
  try_except
    (res <~ conn_create_document freecad name;
     success <~ subscript res "success";
     if truthy success then
       document_name <~ subscript res "document_name";
       ret [TextContent ("Document '" +:+ py_str rt document_name +:+ "' created successfully")]
     else
       error <~ subscript res "error";
       ret [TextContent ("Failed to create document: " +:+ py_str rt error)])
    (fun e =>
       logger ERROR ("Failed to create document: " +:+ exc_str e);!
       ret [TextContent ("Failed to create document: " +:+ exc_str e)]).

(** [obj_properties or {}] *)
Definition properties_or_empty (obj_properties : option Dict) : Dict :=
  match obj_properties with
  | Some (kv :: d) => kv :: d
  | _ => []
  end.

Definition optional_str (o : option string) : PyVal :=
  match o with Some s => PStr s | None => PNone end.

Definition create_object (doc_name obj_type obj_name : string)
    (analysis_name : option string) (obj_properties : option Dict) : M (list Content) :=
  freecad <~ get_freecad_connection;
  try_except
    (let obj_data := [("Name", PStr obj_name); ("Type", PStr obj_type);
                      ("Properties", PDict (properties_or_empty obj_properties));
                      ("Analysis", optional_str analysis_name)] in
     res <~ conn_create_object freecad doc_name obj_data;
     screenshot <~ get_active_screenshot freecad "Isometric";
     success <~ subscript res "success";
     if truthy success then
       object_name <~ subscript res "object_name";
       response <~ new_list [TextContent ("Object '" +:+ py_str rt object_name +:+ "' created successfully")];
       r <~ add_screenshot_if_available response screenshot;
       list_items r
     else
       error <~ subscript res "error";
       response <~ new_list [TextContent ("Failed to create object: " +:+ py_str rt error)];
       r <~ add_screenshot_if_available response screenshot;
       list_items r)
    (fun e =>
       logger ERROR ("Failed to create object: " +:+ exc_str e);!
       ret [TextContent ("Failed to create object: " +:+ exc_str e)]).

Definition edit_object (doc_name obj_name : string) (obj_properties : Dict)
    : M (list Content) :=
  freecad <~ get_freecad_connection;
  try_except
    (res <~ conn_edit_object freecad doc_name obj_name [("Properties", PDict obj_properties)];
     screenshot <~ get_active_screenshot freecad "Isometric";
     success <~ subscript res "success";
     if truthy success then
       object_name <~ subscript res "object_name";
       response <~ new_list [TextContent ("Object '" +:+ py_str rt object_name +:+ "' edited successfully")];
       r <~ add_screenshot_if_available response screenshot;
       list_items r
     else
       error <~ subscript res "error";
       response <~ new_list [TextContent ("Failed to edit object: " +:+ py_str rt error)];
       r <~ add_screenshot_if_available response screenshot;
       list_items r)
    (fun e =>
       logger ERROR ("Failed to edit object: " +:+ exc_str e);!
       ret [TextContent ("Failed to edit object: " +:+ exc_str e)]).

Definition delete_object (doc_name obj_name : string) : M (list Content) :=
  freecad <~ get_freecad_connection;
  try_except
    (res <~ conn_delete_object freecad doc_name obj_name;
     screenshot <~ get_active_screenshot freecad "Isometric";
     success <~ subscript res "success";
     if truthy success then
       object_name <~ subscript res "object_name";
       response <~ new_list [TextContent ("Object '" +:+ py_str rt object_name +:+ "' deleted successfully")];
       r <~ add_screenshot_if_available response screenshot;
       list_items r
     else
       error <~ subscript res "error";
       response <~ new_list [TextContent ("Failed to delete object: " +:+ py_str rt error)];
       r <~ add_screenshot_if_available response screenshot;
       list_items r)
    (fun e =>
       logger ERROR ("Failed to delete object: " +:+ exc_str e);!
       ret [TextContent ("Failed to delete object: " +:+ exc_str e)]).

Definition execute_code (code : string) : M (list Content) :=
  freecad <~ get_freecad_connection;
  try_except
    (res <~ conn_execute_code freecad (UserCode code);
     screenshot <~ get_active_screenshot freecad "Isometric";
     success <~ subscript res "success";
     if truthy success then
       message <~ subscript res "message";
       response <~ new_list [TextContent ("Code executed successfully: " +:+ py_str rt message)];
       r <~ add_screenshot_if_available response screenshot;
       list_items r
     else
       error <~ subscript res "error";
       response <~ new_list [TextContent ("Failed to execute code: " +:+ py_str rt error)];
       r <~ add_screenshot_if_available response screenshot;
       list_items r)
    (fun e =>
       logger ERROR ("Failed to execute code: " +:+ exc_str e);!
       ret [TextContent ("Failed to execute code: " +:+ exc_str e)]).

Inductive ViewName : Type :=
  | Isometric | Front | Top | Right | Back | Left | Bottom | Dimetric | Trimetric.

Definition view_str (v : ViewName) : string :=
  match v with
  | Isometric => "Isometric" | Front => "Front" | Top => "Top"
  | Right => "Right" | Back => "Back" | Left => "Left"
  | Bottom => "Bottom" | Dimetric => "Dimetric" | Trimetric => "Trimetric"
  end.

(** [get_view] has no [try] and does not read [_only_text_feedback]. *)
Definition get_view (view_name : ViewName) : M (list Content) :=
  freecad <~ get_freecad_connection;
  screenshot <~ get_active_screenshot freecad (view_str view_name);
  if is_not_none screenshot then
    item <~ lift (new_ImageContent screenshot "image/png");
    ret [item]
  else
    ret [TextContent "Cannot get screenshot in the current view type (such as TechDraw or Spreadsheet)"].

Definition insert_part_from_library (relative_path : string) : M (list Content) :=
  freecad <~ get_freecad_connection;
  try_except
    (res <~ conn_insert_part_from_library freecad relative_path;
     screenshot <~ get_active_screenshot freecad "Isometric";
     success <~ subscript res "success";
     if truthy success then
       message <~ subscript res "message";
       response <~ new_list [TextContent ("Part inserted from library: " +:+ py_str rt message)];
       r <~ add_screenshot_if_available response screenshot;
       list_items r
     else
       error <~ subscript res "error";
       response <~ new_list [TextContent ("Failed to insert part from library: " +:+ py_str rt error)];
       r <~ add_screenshot_if_available response screenshot;
       list_items r)
    (fun e =>
       logger ERROR ("Failed to insert part from library: " +:+ exc_str e);!
       ret [TextContent ("Failed to insert part from library: " +:+ exc_str e)]).

Definition get_objects (doc_name : string) : M (list Content) :=
  freecad <~ get_freecad_connection;
  try_except
    (screenshot <~ get_active_screenshot freecad "Isometric";
     objects <~ conn_get_objects freecad doc_name;
     response <~ new_list [TextContent (json_dumps rt objects)];
     r <~ add_screenshot_if_available response screenshot;
     list_items r)
    (fun e =>
       logger ERROR ("Failed to get objects: " +:+ exc_str e);!
       ret [TextContent ("Failed to get objects: " +:+ exc_str e)]).

Definition get_object (doc_name obj_name : string) : M (list Content) :=
  freecad <~ get_freecad_connection;
  try_except
    (screenshot <~ get_active_screenshot freecad "Isometric";
     object <~ conn_get_object freecad doc_name obj_name;
     response <~ new_list [TextContent (json_dumps rt object)];
     r <~ add_screenshot_if_available response screenshot;
     list_items r)
    (fun e =>
       logger ERROR ("Failed to get object: " +:+ exc_str e);!
       ret [TextContent ("Failed to get object: " +:+ exc_str e)]).

(** [get_parts_list] has no [try] either. *)
Definition get_parts_list : M (list Content) :=
  freecad <~ get_freecad_connection;
  parts <~ conn_get_parts_list freecad;
  if truthy parts then
    ret [TextContent (json_dumps rt parts)]
  else
    ret [TextContent "No parts found in the parts library. You must add parts_library addon."].

(** *** Sketch tools

    These handlers differ from [execute_code] only in building the script
    themselves and in a success text that does not read the result. *)

(** [if body_name:] *)
Definition nonempty_name (body_name : option string) : option string :=
  match body_name with
  | Some b => if String.eqb b "" then None else Some b
  | None => None
  end.

Definition create_sketch (doc_name sketch_name : string) (plane : Plane)
    (body_name : option string)
    : M (list Content) :=
  freecad <~ get_freecad_connection;
  try_except
    (let code := match nonempty_name body_name with
                 | Some b => SketchInBody doc_name b sketch_name plane
                 | None => SketchStandalone doc_name sketch_name plane
                 end in
     res <~ conn_execute_code freecad code;
     screenshot <~ get_active_screenshot freecad "Isometric";
     success <~ subscript res "success";
     if truthy success then
       response <~ new_list [TextContent ("Sketch '" +:+ sketch_name +:+ "' created successfully on " +:+ plane_str plane +:+ " plane")];
       r <~ add_screenshot_if_available response screenshot;
       list_items r
     else
       error <~ subscript res "error";
       response <~ new_list [TextContent ("Failed to create sketch: " +:+ py_str rt error)];
       r <~ add_screenshot_if_available response screenshot;
       list_items r)
    (fun e =>
       logger ERROR ("Failed to create sketch: " +:+ exc_str e);!
       ret [TextContent ("Failed to create sketch: " +:+ exc_str e)]).

Definition sketch_add_point (doc_name sketch_name : string) (x y : spec_float)
    : M (list Content) :=
  freecad <~ get_freecad_connection;
  try_except
    (let code := AddPoint doc_name sketch_name x y in
     res <~ conn_execute_code freecad code;
     screenshot <~ get_active_screenshot freecad "Isometric";
     success <~ subscript res "success";
     if truthy success then
       response <~ new_list [TextContent ("Point added to sketch '" +:+ sketch_name +:+ "' at (" +:+ float_str rt x +:+ ", " +:+ float_str rt y +:+ ")")];
       r <~ add_screenshot_if_available response screenshot;
       list_items r
     else
       error <~ subscript res "error";
       response <~ new_list [TextContent ("Failed to add point: " +:+ py_str rt error)];
       r <~ add_screenshot_if_available response screenshot;
       list_items r)
    (fun e =>
       logger ERROR ("Failed to add point: " +:+ exc_str e);!
       ret [TextContent ("Failed to add point: " +:+ exc_str e)]).

Definition sketch_add_line (doc_name sketch_name : string) (x1 y1 x2 y2 : spec_float)
    : M (list Content) :=
  freecad <~ get_freecad_connection;
  try_except
    (let code := AddLine doc_name sketch_name x1 y1 x2 y2 in
     res <~ conn_execute_code freecad code;
     screenshot <~ get_active_screenshot freecad "Isometric";
     success <~ subscript res "success";
     if truthy success then
       response <~ new_list [TextContent ("Line added to sketch '" +:+ sketch_name +:+ "' from (" +:+ float_str rt x1 +:+ ", " +:+ float_str rt y1 +:+ ") to (" +:+ float_str rt x2 +:+ ", " +:+ float_str rt y2 +:+ ")")];
       r <~ add_screenshot_if_available response screenshot;
       list_items r
     else
       error <~ subscript res "error";
       response <~ new_list [TextContent ("Failed to add line: " +:+ py_str rt error)];
       r <~ add_screenshot_if_available response screenshot;
       list_items r)
    (fun e =>
       logger ERROR ("Failed to add line: " +:+ exc_str e);!
       ret [TextContent ("Failed to add line: " +:+ exc_str e)]).

Definition sketch_add_circle (doc_name sketch_name : string)
    (center_x center_y radius : spec_float)
    : M (list Content) :=
  freecad <~ get_freecad_connection;
  try_except
    (let code := AddCircle doc_name sketch_name center_x center_y radius in
     res <~ conn_execute_code freecad code;
     screenshot <~ get_active_screenshot freecad "Isometric";
     success <~ subscript res "success";
     if truthy success then
       response <~ new_list [TextContent ("Circle added to sketch '" +:+ sketch_name +:+ "' with center at (" +:+ float_str rt center_x +:+ ", " +:+ float_str rt center_y +:+ ") and radius " +:+ float_str rt radius)];
       r <~ add_screenshot_if_available response screenshot;
       list_items r
     else
       error <~ subscript res "error";
       response <~ new_list [TextContent ("Failed to add circle: " +:+ py_str rt error)];
       r <~ add_screenshot_if_available response screenshot;
       list_items r)
    (fun e =>
       logger ERROR ("Failed to add circle: " +:+ exc_str e);!
       ret [TextContent ("Failed to add circle: " +:+ exc_str e)]).

Definition sketch_add_arc (doc_name sketch_name : string)
    (center_x center_y radius start_angle end_angle : spec_float)
    : M (list Content) :=
  freecad <~ get_freecad_connection;
  try_except
    (let code := AddArc doc_name sketch_name center_x center_y radius start_angle end_angle in
     res <~ conn_execute_code freecad code;
     screenshot <~ get_active_screenshot freecad "Isometric";
     success <~ subscript res "success";
     if truthy success then
       response <~ new_list [TextContent ("Arc added to sketch '" +:+ sketch_name +:+ "' with center at (" +:+ float_str rt center_x +:+ ", " +:+ float_str rt center_y +:+ "), radius " +:+ float_str rt radius +:+ ", from " +:+ float_str rt start_angle +:+ "째 to " +:+ float_str rt end_angle +:+ "째")];
       r <~ add_screenshot_if_available response screenshot;
       list_items r
     else
       error <~ subscript res "error";
       response <~ new_list [TextContent ("Failed to add arc: " +:+ py_str rt error)];
       r <~ add_screenshot_if_available response screenshot;
       list_items r)
    (fun e =>
       logger ERROR ("Failed to add arc: " +:+ exc_str e);!
       ret [TextContent ("Failed to add arc: " +:+ exc_str e)]).

Definition sketch_add_rectangle (doc_name sketch_name : string) (x1 y1 x2 y2 : spec_float)
    : M (list Content) :=
  freecad <~ get_freecad_connection;
  try_except
    (let code := AddRectangle doc_name sketch_name x1 y1 x2 y2 in
     res <~ conn_execute_code freecad code;
     screenshot <~ get_active_screenshot freecad "Isometric";
     success <~ subscript res "success";
     if truthy success then
       response <~ new_list [TextContent ("Rectangle added to sketch '" +:+ sketch_name +:+ "' from (" +:+ float_str rt x1 +:+ ", " +:+ float_str rt y1 +:+ ") to (" +:+ float_str rt x2 +:+ ", " +:+ float_str rt y2 +:+ ")")];
       r <~ add_screenshot_if_available response screenshot;
       list_items r
     else
       error <~ subscript res "error";
       response <~ new_list [TextContent ("Failed to add rectangle: " +:+ py_str rt error)];
       r <~ add_screenshot_if_available response screenshot;
       list_items r)
    (fun e =>
       logger ERROR ("Failed to add rectangle: " +:+ exc_str e);!
       ret [TextContent ("Failed to add rectangle: " +:+ exc_str e)]).

(** [p[k]] on a point given as a dict of floats. *)
Fixpoint point_lookup (k : string) (p : list (string * spec_float)) : option spec_float :=
  match p with
  | [] => None
  | (k', v) :: p' => if String.eqb k k' then Some v else point_lookup k p'
  end.

Definition point_coordinate (p : list (string * spec_float)) (k : string)
    : Outcome spec_float :=
  match point_lookup k p with
  | Some v => Return v
  | None => Raise (mkExc KeyError ("'" +:+ k +:+ "'"))
  end.

(** [[(p['x'], p['y']) for p in points]] *)
Fixpoint point_pairs (points : list (list (string * spec_float)))
    : Outcome (list (spec_float * spec_float)) :=
  match points with
  | [] => Return []
  | p :: rest =>
      x <- point_coordinate p "x";
      y <- point_coordinate p "y";
      pairs <- point_pairs rest;
      Return ((x, y) :: pairs)
  end.

Definition sketch_add_polyline (doc_name sketch_name : string)
    (points : list (list (string * spec_float))) (closed : bool)
    : M (list Content) :=
  freecad <~ get_freecad_connection;
  try_except
    (pairs <~ lift (point_pairs points);
     let code := AddPolyline doc_name sketch_name pairs closed in
     res <~ conn_execute_code freecad code;
     screenshot <~ get_active_screenshot freecad "Isometric";
     success <~ subscript res "success";
     if truthy success then
       response <~ new_list [TextContent ("Polyline added to sketch '" +:+ sketch_name +:+ "' with " +:+ int_str (Z.of_nat (length points)) +:+ " points, closed: " +:+ bool_str closed)];
       r <~ add_screenshot_if_available response screenshot;
       list_items r
     else
       error <~ subscript res "error";
       response <~ new_list [TextContent ("Failed to add polyline: " +:+ py_str rt error)];
       r <~ add_screenshot_if_available response screenshot;
       list_items r)
    (fun e =>
       logger ERROR ("Failed to add polyline: " +:+ exc_str e);!
       ret [TextContent ("Failed to add polyline: " +:+ exc_str e)]).

Definition sketch_add_ellipse (doc_name sketch_name : string)
    (center_x center_y major_radius minor_radius angle : spec_float)
    : M (list Content) :=
  freecad <~ get_freecad_connection;
  try_except
    (let code := AddEllipse doc_name sketch_name center_x center_y major_radius minor_radius angle in
     res <~ conn_execute_code freecad code;
     screenshot <~ get_active_screenshot freecad "Isometric";
     success <~ subscript res "success";
     if truthy success then
       response <~ new_list [TextContent ("Ellipse added to sketch '" +:+ sketch_name +:+ "' with center at (" +:+ float_str rt center_x +:+ ", " +:+ float_str rt center_y +:+ "), major radius " +:+ float_str rt major_radius +:+ ", minor radius " +:+ float_str rt minor_radius)];
       r <~ add_screenshot_if_available response screenshot;
       list_items r
     else
       error <~ subscript res "error";
       response <~ new_list [TextContent ("Failed to add ellipse: " +:+ py_str rt error)];
       r <~ add_screenshot_if_available response screenshot;
       list_items r)
    (fun e =>
       logger ERROR ("Failed to add ellipse: " +:+ exc_str e);!
       ret [TextContent ("Failed to add ellipse: " +:+ exc_str e)]).

Definition sketch_add_regular_polygon (doc_name sketch_name : string)
    (center_x center_y radius : spec_float) (sides : Z) (angle : spec_float)
    : M (list Content) :=
  freecad <~ get_freecad_connection;
  try_except
    (let code := AddRegularPolygon doc_name sketch_name center_x center_y radius sides angle in
     res <~ conn_execute_code freecad code;
     screenshot <~ get_active_screenshot freecad "Isometric";
     success <~ subscript res "success";
     if truthy success then
       response <~ new_list [TextContent ("Regular " +:+ int_str sides +:+ "-sided polygon added to sketch '" +:+ sketch_name +:+ "' with center at (" +:+ float_str rt center_x +:+ ", " +:+ float_str rt center_y +:+ ") and radius " +:+ float_str rt radius)];
       r <~ add_screenshot_if_available response screenshot;
       list_items r
     else
       error <~ subscript res "error";
       response <~ new_list [TextContent ("Failed to add polygon: " +:+ py_str rt error)];
       r <~ add_screenshot_if_available response screenshot;
       list_items r)
    (fun e =>
       logger ERROR ("Failed to add polygon: " +:+ exc_str e);!
       ret [TextContent ("Failed to add polygon: " +:+ exc_str e)]).

(** [str(point_indices) if point_indices else "None"] *)
Definition nonempty_indices (point_indices : option (list Z)) : option (list Z) :=
  match point_indices with
  | Some (i :: l) => Some (i :: l)
  | _ => None
  end.

Definition sketch_add_constraint (doc_name sketch_name : string)
    (constraint_type : ConstraintType) (geometry_indices : list Z)
    (value : option spec_float) (point_indices : option (list Z))
    : M (list Content) :=
  freecad <~ get_freecad_connection;
  try_except
    (let code := AddConstraint doc_name sketch_name constraint_type geometry_indices
                   (nonempty_indices point_indices) value in
     res <~ conn_execute_code freecad code;
     screenshot <~ get_active_screenshot freecad "Isometric";
     success <~ subscript res "success";
     if truthy success then
       response <~ new_list [TextContent (constraint_str constraint_type +:+ " constraint added to sketch '" +:+ sketch_name +:+ "'")];
       r <~ add_screenshot_if_available response screenshot;
       list_items r
     else
       error <~ subscript res "error";
       response <~ new_list [TextContent ("Failed to add constraint: " +:+ py_str rt error)];
       r <~ add_screenshot_if_available response screenshot;
       list_items r)
    (fun e =>
       logger ERROR ("Failed to add constraint: " +:+ exc_str e);!
       ret [TextContent ("Failed to add constraint: " +:+ exc_str e)]).

Definition sketch_close_edit (doc_name sketch_name : string)
    : M (list Content) :=
  freecad <~ get_freecad_connection;
  try_except
    (let code := CloseEdit doc_name sketch_name in
     res <~ conn_execute_code freecad code;
     screenshot <~ get_active_screenshot freecad "Isometric";
     success <~ subscript res "success";
     if truthy success then
       response <~ new_list [TextContent ("Closed editing mode for sketch '" +:+ sketch_name +:+ "'")];
       r <~ add_screenshot_if_available response screenshot;
       list_items r
     else
       error <~ subscript res "error";
       response <~ new_list [TextContent ("Failed to close sketch editing: " +:+ py_str rt error)];
       r <~ add_screenshot_if_available response screenshot;
       list_items r)
    (fun e =>
       logger ERROR ("Failed to close sketch editing: " +:+ exc_str e);!
       ret [TextContent ("Failed to close sketch editing: " +:+ exc_str e)]).

(** ** The exposed operations *)

(** A call of one tool with the arguments the hosting layer has validated
    against the handler's signature. *)
Inductive Operation : Type :=
  | CreateDocument (name : string)
  | CreateObject (doc_name obj_type obj_name : string)
                 (analysis_name : option string) (obj_properties : option Dict)
  | EditObject (doc_name obj_name : string) (obj_properties : Dict)
  | DeleteObject (doc_name obj_name : string)
  | ExecuteCode (code : string)
  | GetView (view_name : ViewName)
  | InsertPartFromLibrary (relative_path : string)
  | GetObjects (doc_name : string)
  | GetObject (doc_name obj_name : string)
  | GetPartsList
  | CreateSketch (doc_name sketch_name : string) (plane : Plane)
                 (body_name : option string)
  | SketchAddPoint (doc_name sketch_name : string) (x y : spec_float)
  | SketchAddLine (doc_name sketch_name : string) (x1 y1 x2 y2 : spec_float)
  | SketchAddCircle (doc_name sketch_name : string)
                    (center_x center_y radius : spec_float)
  | SketchAddArc (doc_name sketch_name : string)
                 (center_x center_y radius start_angle end_angle : spec_float)
  | SketchAddRectangle (doc_name sketch_name : string) (x1 y1 x2 y2 : spec_float)
  | SketchAddPolyline (doc_name sketch_name : string)
                      (points : list (list (string * spec_float))) (closed : bool)
  | SketchAddEllipse (doc_name sketch_name : string)
                     (center_x center_y major_radius minor_radius angle : spec_float)
  | SketchAddRegularPolygon (doc_name sketch_name : string)
                            (center_x center_y radius : spec_float) (sides : Z)
                            (angle : spec_float)
  | SketchAddConstraint (doc_name sketch_name : string)
                        (constraint_type : ConstraintType)
                        (geometry_indices : list Z) (value : option spec_float)
                        (point_indices : option (list Z))
  | SketchCloseEdit (doc_name sketch_name : string).

(** The handler the hosting layer runs for a call. *)
Definition handle (op : Operation) : M (list Content) :=
  match op with
  | CreateDocument name => create_document name
  | CreateObject d t n a p => create_object d t n a p
  | EditObject d n p => edit_object d n p
  | DeleteObject d n => delete_object d n
  | ExecuteCode code => execute_code code
  | GetView v => get_view v
  | InsertPartFromLibrary path => insert_part_from_library path
  | GetObjects d => get_objects d
  | GetObject d n => get_object d n
  | GetPartsList => get_parts_list
  | CreateSketch d sk pl b => create_sketch d sk pl b
  | SketchAddPoint d sk x y => sketch_add_point d sk x y
  | SketchAddLine d sk x1 y1 x2 y2 => sketch_add_line d sk x1 y1 x2 y2
  | SketchAddCircle d sk cx cy r => sketch_add_circle d sk cx cy r
  | SketchAddArc d sk cx cy r a1 a2 => sketch_add_arc d sk cx cy r a1 a2
  | SketchAddRectangle d sk x1 y1 x2 y2 => sketch_add_rectangle d sk x1 y1 x2 y2
  | SketchAddPolyline d sk pts c => sketch_add_polyline d sk pts c
  | SketchAddEllipse d sk cx cy a b an => sketch_add_ellipse d sk cx cy a b an
  | SketchAddRegularPolygon d sk cx cy r n an => sketch_add_regular_polygon d sk cx cy r n an
  | SketchAddConstraint d sk ct gi v pi => sketch_add_constraint d sk ct gi v pi
  | SketchCloseEdit d sk => sketch_close_edit d sk
  end.

End Server.

(** ** A summary of the handlers' common shape

    Sixteen handlers are the same code around a different request, success
    text and failure prefix; two more ([get_objects], [get_object]) take the
    screenshot first and have no success flag to read.  The definitions below
    name these ingredients so that statements can range over all
    operations.  [feedback_tool_sound] and [query_tool_sound] prove that the
    handlers above are instances of them. *)

Section Shapes.

Variable rt : Runtime.
Variable remote : Remote.

(** What the builder appends, as a function of the mode and the
    screenshot, or the exception it raises instead. *)
Definition appended (only_text : bool) (screenshot : PyVal) : Outcome (list Content) :=
  if is_not_none screenshot && negb only_text then
    item <- new_ImageContent rt screenshot "image/png";
    Return [item]
  else if negb only_text then Return [TextContent unavailable_note]
  else Return [].

(** The same for a screenshot of the type the guard is annotated with,
    [str | None]: nothing in text-only mode, else the image or the note. *)
Definition attachment (only_text : bool) (screenshot : option string) : list Content :=
  if only_text then []
  else
    match screenshot with
    | Some data => [ImageContent (PStr data) "image/png"]
    | None => [TextContent unavailable_note]
    end.

Record FeedbackTool : Type := mkFeedbackTool {
  prepare : Outcome Request;              (* the request of the primary call *)
  success_text : PyVal -> Outcome string; (* the text of the success item *)
  failure_prefix : string                 (* prefix of both failure texts *)
}.

Definition reading (key : string) (text : string -> string) (res : PyVal)
    : Outcome string :=
  v <- py_getitem rt res key;
  Return (text (py_str rt v)).

Definition feedback_tool_of (op : Operation) : option FeedbackTool :=
  let fs := float_str rt in
  match op with
  | CreateDocument _ | GetView _ | GetObjects _ | GetObject _ _ | GetPartsList => None
  | CreateObject d t n a p =>
      Some (mkFeedbackTool
        (Return (ReqCreateObject d [("Name", PStr n); ("Type", PStr t);
                                 ("Properties", PDict (properties_or_empty p));
                                 ("Analysis", optional_str a)]))
        (reading "object_name" (fun n => "Object '" +:+ n +:+ "' created successfully"))
        "Failed to create object: ")
  | EditObject d n p =>
      Some (mkFeedbackTool
        (Return (ReqEditObject d n [("Properties", PDict p)]))
        (reading "object_name" (fun n => "Object '" +:+ n +:+ "' edited successfully"))
        "Failed to edit object: ")
  | DeleteObject d n =>
      Some (mkFeedbackTool
        (Return (ReqDeleteObject d n))
        (reading "object_name" (fun n => "Object '" +:+ n +:+ "' deleted successfully"))
        "Failed to delete object: ")
  | ExecuteCode code =>
      Some (mkFeedbackTool
        (Return (ReqExecuteCode (UserCode code)))
        (reading "message" (fun m => "Code executed successfully: " +:+ m))
        "Failed to execute code: ")
  | InsertPartFromLibrary path =>
      Some (mkFeedbackTool
        (Return (ReqInsertPartFromLibrary path))
        (reading "message" (fun m => "Part inserted from library: " +:+ m))
        "Failed to insert part from library: ")
  | CreateSketch d sk pl b =>
      Some (mkFeedbackTool
        (Return (ReqExecuteCode
                match nonempty_name b with
                | Some b' => SketchInBody d b' sk pl
                | None => SketchStandalone d sk pl
                end))
        (fun _ => Return ("Sketch '" +:+ sk +:+ "' created successfully on " +:+ plane_str pl +:+ " plane"))
        "Failed to create sketch: ")
  | SketchAddPoint d sk x y =>
      Some (mkFeedbackTool
        (Return (ReqExecuteCode (AddPoint d sk x y)))
        (fun _ => Return ("Point added to sketch '" +:+ sk +:+ "' at (" +:+ fs x +:+ ", " +:+ fs y +:+ ")"))
        "Failed to add point: ")
  | SketchAddLine d sk x1 y1 x2 y2 =>
      Some (mkFeedbackTool
        (Return (ReqExecuteCode (AddLine d sk x1 y1 x2 y2)))
        (fun _ => Return ("Line added to sketch '" +:+ sk +:+ "' from (" +:+ fs x1 +:+ ", " +:+ fs y1 +:+ ") to (" +:+ fs x2 +:+ ", " +:+ fs y2 +:+ ")"))
        "Failed to add line: ")
  | SketchAddCircle d sk cx cy r =>
      Some (mkFeedbackTool
        (Return (ReqExecuteCode (AddCircle d sk cx cy r)))
        (fun _ => Return ("Circle added to sketch '" +:+ sk +:+ "' with center at (" +:+ fs cx +:+ ", " +:+ fs cy +:+ ") and radius " +:+ fs r))
        "Failed to add circle: ")
  | SketchAddArc d sk cx cy r a1 a2 =>
      Some (mkFeedbackTool
        (Return (ReqExecuteCode (AddArc d sk cx cy r a1 a2)))
        (fun _ => Return ("Arc added to sketch '" +:+ sk +:+ "' with center at (" +:+ fs cx +:+ ", " +:+ fs cy +:+ "), radius " +:+ fs r +:+ ", from " +:+ fs a1 +:+ "째 to " +:+ fs a2 +:+ "째"))
        "Failed to add arc: ")
  | SketchAddRectangle d sk x1 y1 x2 y2 =>
      Some (mkFeedbackTool
        (Return (ReqExecuteCode (AddRectangle d sk x1 y1 x2 y2)))
        (fun _ => Return ("Rectangle added to sketch '" +:+ sk +:+ "' from (" +:+ fs x1 +:+ ", " +:+ fs y1 +:+ ") to (" +:+ fs x2 +:+ ", " +:+ fs y2 +:+ ")"))
        "Failed to add rectangle: ")
  | SketchAddPolyline d sk pts c =>
      Some (mkFeedbackTool
        (pairs <- point_pairs pts; Return (ReqExecuteCode (AddPolyline d sk pairs c)))
        (fun _ => Return ("Polyline added to sketch '" +:+ sk +:+ "' with " +:+ int_str (Z.of_nat (length pts)) +:+ " points, closed: " +:+ bool_str c))
        "Failed to add polyline: ")
  | SketchAddEllipse d sk cx cy a b an =>
      Some (mkFeedbackTool
        (Return (ReqExecuteCode (AddEllipse d sk cx cy a b an)))
        (fun _ => Return ("Ellipse added to sketch '" +:+ sk +:+ "' with center at (" +:+ fs cx +:+ ", " +:+ fs cy +:+ "), major radius " +:+ fs a +:+ ", minor radius " +:+ fs b))
        "Failed to add ellipse: ")
  | SketchAddRegularPolygon d sk cx cy r n an =>
      Some (mkFeedbackTool
        (Return (ReqExecuteCode (AddRegularPolygon d sk cx cy r n an)))
        (fun _ => Return ("Regular " +:+ int_str n +:+ "-sided polygon added to sketch '" +:+ sk +:+ "' with center at (" +:+ fs cx +:+ ", " +:+ fs cy +:+ ") and radius " +:+ fs r))
        "Failed to add polygon: ")
  | SketchAddConstraint d sk ct gi v pi =>
      Some (mkFeedbackTool
        (Return (ReqExecuteCode (AddConstraint d sk ct gi (nonempty_indices pi) v)))
        (fun _ => Return (constraint_str ct +:+ " constraint added to sketch '" +:+ sk +:+ "'"))
        "Failed to add constraint: ")
  | SketchCloseEdit d sk =>
      Some (mkFeedbackTool
        (Return (ReqExecuteCode (CloseEdit d sk)))
        (fun _ => Return ("Closed editing mode for sketch '" +:+ sk +:+ "'"))
        "Failed to close sketch editing: ")
  end.

(** The lines every handler ends its two branches with:
    [response = [TextContent(...)]] and
    [return add_screenshot_if_available(response, screenshot)]. *)
Definition respond (text : string) (screenshot : PyVal) : M (list Content) :=
  response <~ new_list [TextContent text];
  r <~ add_screenshot_if_available rt response screenshot;
  list_items r.

(** The part of a handler inside its [try], and the [except] clause. *)
Definition feedback_body (t : FeedbackTool) (freecad : FreeCADConnection)
    : M (list Content) :=
  req <~ lift (prepare t);
  res <~ call_server remote freecad req;
  screenshot <~ get_active_screenshot rt remote freecad "Isometric";
  success <~ subscript rt res "success";
  if truthy success then
    text <~ lift (success_text t res);
    respond text screenshot
  else
    error <~ subscript rt res "error";
    respond (failure_prefix t +:+ py_str rt error) screenshot.

Definition failure_item (prefix : string) (e : Exc) : M (list Content) :=
  logger ERROR (prefix +:+ exc_str e);!
  ret [TextContent (prefix +:+ exc_str e)].

Definition run_feedback_tool (t : FeedbackTool) : M (list Content) :=
  freecad <~ get_freecad_connection remote;
  try_except (feedback_body t freecad) (failure_item (failure_prefix t)).

Record QueryTool : Type := mkQueryTool {
  query : Request;
  query_failure_prefix : string
}.

Definition query_tool_of (op : Operation) : option QueryTool :=
  match op with
  | GetObjects d => Some (mkQueryTool (ReqGetObjects d) "Failed to get objects: ")
  | GetObject d n => Some (mkQueryTool (ReqGetObject d n) "Failed to get object: ")
  | _ => None
  end.

Definition query_body (q : QueryTool) (freecad : FreeCADConnection) : M (list Content) :=
  screenshot <~ get_active_screenshot rt remote freecad "Isometric";
  answer <~ call_server remote freecad (query q);
  respond (json_dumps rt answer) screenshot.

Definition run_query_tool (q : QueryTool) : M (list Content) :=
  freecad <~ get_freecad_connection remote;
  try_except (query_body q freecad) (failure_item (query_failure_prefix q)).

(** The handlers that pass their answer through the builder. *)
Definition builds_envelope (op : Operation) : bool :=
  match op with
  | CreateDocument _ | GetView _ | GetPartsList => false
  | _ => true
  end.

End Shapes.

(** The primary text item computed from a remote result: the success text
    when the flag is truthy, else the failure prefix followed by the
    reported error. *)
Definition primary_text (rt : Runtime) (t : FeedbackTool) (res : PyVal) : Outcome string :=
  success <- py_getitem rt res "success";
  if truthy success then success_text t res
  else
    error <- py_getitem rt res "error";
    Return (failure_prefix t +:+ py_str rt error).

(** The invariant of a returned envelope: at least one item, at most one
    image, and not an image together with the note. *)
Definition envelope_ok (items : list Content) : Prop :=
  1 <= length items
  /\ count_images items <= 1
  /\ ~ (1 <= count_images items /\ In (TextContent unavailable_note) items).

(** Code that leaves the two module globals alone. *)
Definition keeps_globals {A} (m : M A) : Prop :=
  forall s,
    only_text_feedback (snd (m s)) = only_text_feedback s
    /\ freecad_connection (snd (m s)) = freecad_connection s.

(** The hosting layer runs one handler after the other on the same module
    state. *)
Fixpoint serve (rt : Runtime) (remote : Remote) (ops : list Operation) (s : State) : State :=
  match ops with
  | [] => s
  | op :: rest => serve rt remote rest (snd (handle rt remote op s))
  end.

Definition count_pings (w : list Request) : nat :=
  length (List.filter is_ping w).

Definition count_screenshot_requests (w : list Request) : nat :=
  length (List.filter is_screenshot_request w).

(** ** Process start and stop *)

(** [main]: the parsed [--only-text-feedback] flag is stored in the global
    and logged; [mcp.run()] then enters [server_lifespan] and serves. *)
Definition main (only_text_feedback_arg : bool) : M unit :=
  fun s =>
    logger INFO ("Only text feedback: " +:+ bool_str only_text_feedback_arg)
      (mkState only_text_feedback_arg (freecad_connection s) (next_id s) (store s)
               (wire s) (log s)).

(** [server_lifespan], the part before [yield]: one eager attempt to
    connect, whose failure is logged and swallowed. *)
Definition lifespan_startup (remote : Remote) : M unit :=
  logger INFO "FreeCADMCP server starting up";!
  try_except
    (_ <~ get_freecad_connection remote;
     logger INFO "Successfully connected to FreeCAD on startup")
    (fun e =>
       logger WARNING ("Could not connect to FreeCAD on startup: " +:+ exc_str e);!
       logger WARNING
         "Make sure the FreeCAD addon is running before using FreeCAD resources or tools").

(** [_freecad_connection.disconnect()]: the class [FreeCADConnection]
    defines [ping], the request methods and [get_active_screenshot], and no
    [disconnect]; the attribute lookup on the instance fails. *)
Definition conn_disconnect (self : FreeCADConnection) : M unit :=
  raise (mkExc AttributeError "'FreeCADConnection' object has no attribute 'disconnect'").

(** [server_lifespan], the [finally] block. *)
Definition lifespan_shutdown : M unit :=
  cur <~ read_connection;
  match cur with
  | Some c =>
      logger INFO "Disconnecting from FreeCAD on shutdown";!
      conn_disconnect c;!
      write_connection None
  | None => ret tt
  end;!
  logger INFO "FreeCADMCP server shut down".

(** The requests the guard may send, in order, for a view name. *)
Definition guard_requests (view : string) (l : list Request) : Prop :=
  l = [ReqExecuteCode ViewProbe]
  \/ l = [ReqExecuteCode ViewProbe; ReqGetActiveScreenshot view].

(** Code that sends at most [n] requests, no ping among them and at most
    [q] screenshot requests. *)
Definition quiet {A} (n q : nat) (m : M A) : Prop :=
  forall s, exists l,
    wire (snd (m s)) = wire s ++ l
    /\ length l <= n /\ count_pings l = 0 /\ count_screenshot_requests l <= q.

(** Every point given as a dict with both coordinates. *)
Definition point_dict (xy : spec_float * spec_float) : list (string * spec_float) :=
  [("x", fst xy); ("y", snd xy)].

(** ** Concrete runtimes, endpoints and states for the examples *)

Definition example_runtime : Runtime :=
  mkRuntime (fun _ => "0.0") (fun _ => "[]") (fun _ => "[]")
            (fun _ _ => "unsupported operation").

(** The state [main] leaves before [mcp.run()] when no connection was made
    yet, and the state once a first [get_freecad_connection] succeeded. *)
Definition initial_state (only_text : bool) : State :=
  mkState only_text None 0 ∅ [] [].

Definition connected_state (only_text : bool) : State :=
  mkState only_text (Some (mkConnection 0 "http://localhost:9875")) 1 ∅ [ReqPing] [].

(** Nothing listens on the port: every call fails in the transport. *)
Definition remote_unreachable : Remote :=
  fun _ _ => Raise (mkExc TransportError "[Errno 111] Connection refused").

(** The port answers, but the ping comes back false. *)
Definition remote_not_alive : Remote :=
  fun _ req =>
    match req with
    | ReqPing => Return (PBool false)
    | _ => Raise (mkExc TransportError "timed out")
    end.

(** An endpoint that is alive and answers the view probe, the screenshot
    request and every other request in a fixed way. *)
Definition scripted_remote (probe screenshot other : Outcome PyVal) : Remote :=
  fun _ req =>
    match req with
    | ReqPing => Return (PBool true)
    | ReqExecuteCode ViewProbe => probe
    | ReqGetActiveScreenshot _ => screenshot
    | _ => other
    end.

Definition probe_supported : Outcome PyVal :=
  Return (PDict [("success", PBool true);
                 ("message", PStr "Current view supports screenshots: View3DInventor")]).

Definition probe_unsupported : Outcome PyVal :=
  Return (PDict [("success", PBool true);
                 ("message", PStr "Current view does not support screenshots")]).

Definition probe_no_active_view : Outcome PyVal :=
  Return (PDict [("success", PBool true); ("message", PStr "No active view")]).

Definition png : PyVal := PStr "iVBORw0KGgo=".

Definition done_result : Outcome PyVal :=
  Return (PDict [("success", PBool true); ("message", PStr "done")]).

Definition duplicate_name_result : Outcome PyVal :=
  Return (PDict [("success", PBool false); ("error", PStr "DuplicateName")]).

Definition foo_created_result : Outcome PyVal :=
  Return (PDict [("success", PBool true); ("document_name", PStr "Foo")]).

Definition timed_out : Outcome PyVal :=
  Raise (mkExc TransportError "timed out").

(** * Properties *)

(** ** The screenshot guard *)

Section Guard.

Variable rt : Runtime.
Variable remote : Remote.

(** The guard always returns, and touches nothing but the wire and the
    log. *)
Lemma guard_total self view s :
  exists shot s',
    get_active_screenshot rt remote self view s = (Return shot, s')
    /\ only_text_feedback s' = only_text_feedback s
    /\ freecad_connection s' = freecad_connection s
    /\ store s' = store s
    /\ next_id s' = next_id s.
Proof.
  unfold get_active_screenshot, try_except, bind, call_server, dict_get, py_in, logger, ret.
  unfold lift. simpl.
  destruct (remote (wire s) (ReqExecuteCode ViewProbe)) as [result|e]; simpl; [|eauto 10].
  destruct (py_get rt result "success" (PBool false)) as [ok|e]; simpl; [|eauto 10].
  destruct (truthy ok); simpl; [|eauto 10].
  destruct (py_get rt result "message" (PStr "")) as [msg|e]; simpl; [|eauto 10].
  destruct (py_contains rt unsupported_view_marker msg) as [[|]|e]; simpl;
    [eauto 10| |eauto 10].
  destruct (remote _ _); simpl; eauto 10.
Qed.

Lemma guard_never_raises self view s e s' :
  get_active_screenshot rt remote self view s <> (Raise e, s').
Proof.
  destruct (guard_total self view s) as (shot & s1 & -> & _). done.
Qed.

(** A probe that fails, or whose message carries the marker, ends the
    guard: [None] comes back and the probe is the only request sent. *)
Lemma guard_probe_failed self view s result ok :
  remote (wire s) (ReqExecuteCode ViewProbe) = Return result ->
  py_get rt result "success" (PBool false) = Return ok ->
  truthy ok = false ->
  exists s',
    get_active_screenshot rt remote self view s = (Return PNone, s')
    /\ wire s' = wire s ++ [ReqExecuteCode ViewProbe].
Proof.
  intros Hprobe Hok Hfalse.
  unfold get_active_screenshot, try_except, bind, call_server, dict_get, logger, ret.
  unfold lift. rewrite Hprobe, Hok. simpl. rewrite Hfalse. simpl. eauto.
Qed.

Lemma guard_marker_seen self view s result ok message :
  remote (wire s) (ReqExecuteCode ViewProbe) = Return result ->
  py_get rt result "success" (PBool false) = Return ok ->
  py_get rt result "message" (PStr "") = Return (PStr message) ->
  str_contains unsupported_view_marker message = true ->
  exists s',
    get_active_screenshot rt remote self view s = (Return PNone, s')
    /\ wire s' = wire s ++ [ReqExecuteCode ViewProbe].
Proof.
  intros Hprobe Hok Hmsg Hmark.
  unfold get_active_screenshot, try_except, bind, call_server, dict_get, py_in, logger, ret.
  unfold lift. rewrite Hprobe, Hok. simpl.
  destruct (truthy ok); simpl; [|eauto].
  rewrite Hmsg. simpl. rewrite Hmark. simpl. eauto.
Qed.

(** Any other successful probe lets the screenshot request go out, whatever
    its message says. *)
Lemma guard_marker_missing self view s result ok message :
  remote (wire s) (ReqExecuteCode ViewProbe) = Return result ->
  py_get rt result "success" (PBool false) = Return ok ->
  truthy ok = true ->
  py_get rt result "message" (PStr "") = Return (PStr message) ->
  str_contains unsupported_view_marker message = false ->
  exists shot s',
    get_active_screenshot rt remote self view s = (Return shot, s')
    /\ wire s' = wire s ++ [ReqExecuteCode ViewProbe; ReqGetActiveScreenshot view].
Proof.
  intros Hprobe Hok Htrue Hmsg Hmark.
  unfold get_active_screenshot, try_except, bind, call_server, dict_get, py_in, logger, ret.
  unfold lift. rewrite Hprobe, Hok. simpl. rewrite Htrue. simpl.
  rewrite Hmsg. simpl. rewrite Hmark. simpl.
  destruct (remote (wire s ++ _) _); simpl; do 2 eexists; (split; [reflexivity|]); simpl;
    by rewrite <- app_assoc.
Qed.

End Guard.

(** C8: the guard never raises and does not ask for a screenshot when the
    probe reports a view that cannot render one ([guard_never_raises],
    [guard_probe_failed], [guard_marker_seen]); but a probe that reports
    that there is no active view is not recognised.  Here the endpoint
    answers the probe with the message of the script's last branch, and the
    guard sends the screenshot request all the same. *)
Lemma guard_no_active_view_requests_screenshot :
  let remote := scripted_remote probe_no_active_view (Return PNone) timed_out in
  let self := mkConnection 0 "http://localhost:9875" in
  exists s',
    get_active_screenshot example_runtime remote self "Isometric" (connected_state false)
      = (Return PNone, s')
    /\ wire s' = [ReqPing; ReqExecuteCode ViewProbe; ReqGetActiveScreenshot "Isometric"]
    /\ count_screenshot_requests (wire s') = 1.
Proof. eexists. split; [reflexivity|]. split; reflexivity. Qed.

(** ** The connection slot *)

Section Lifecycle.

Variable remote : Remote.

Lemma get_connection_existing s c :
  freecad_connection s = Some c ->
  get_freecad_connection remote s = (Return c, s).
Proof.
  intros H. unfold get_freecad_connection, bind, read_connection. by rewrite H.
Qed.

Lemma get_connection_frame s o s' :
  get_freecad_connection remote s = (o, s') ->
  only_text_feedback s' = only_text_feedback s /\ store s' = store s.
Proof.
  unfold get_freecad_connection, bind, read_connection, new_FreeCADConnection,
    write_connection, ping, call_server, logger, raise, ret. simpl.
  destruct (freecad_connection s); [by intros [= <- <-]|].
  destruct (remote (wire s) ReqPing) as [alive|e]; simpl; [|by intros [= <- <-]].
  destruct (truthy alive); simpl; by intros [= <- <-].
Qed.

Lemma get_connection_returned s c s' :
  get_freecad_connection remote s = (Return c, s') ->
  freecad_connection s' = Some c.
Proof.
  unfold get_freecad_connection, bind, read_connection, new_FreeCADConnection,
    write_connection, ping, call_server, logger, raise, ret. simpl.
  destruct (freecad_connection s) eqn:Hc; [by intros [= <- <-]|].
  destruct (remote (wire s) ReqPing) as [alive|e]; simpl; [|done].
  destruct (truthy alive); simpl; [|done]. by intros [= <- <-].
Qed.

(** A ping answered with a falsy value empties the slot again, and the next
    call builds and pings anew. *)
Lemma get_connection_ping_falsy s alive :
  freecad_connection s = None ->
  remote (wire s) ReqPing = Return alive ->
  truthy alive = false ->
  exists e s',
    get_freecad_connection remote s = (Raise e, s')
    /\ freecad_connection s' = None
    /\ wire s' = wire s ++ [ReqPing]
    /\ wire (snd (get_freecad_connection remote s')) = wire s' ++ [ReqPing].
Proof.
  intros Hslot Hping Hfalsy.
  unfold get_freecad_connection, bind, read_connection, new_FreeCADConnection,
    write_connection, ping, call_server, logger, raise, ret. simpl.
  rewrite Hslot, Hping. simpl. rewrite Hfalsy. simpl.
  do 2 eexists. split; [reflexivity|]. simpl. split; [done|]. split; [done|].
  destruct (remote (wire s ++ [ReqPing]) ReqPing) as [v|e]; simpl; [|done].
  destruct (truthy v); done.
Qed.

(** A ping that raises leaves the object just built in the slot: the
    exception passes through [get_freecad_connection] before the slot is
    reset, and the next call hands out that object without a ping. *)
Lemma get_connection_ping_raises s e :
  freecad_connection s = None ->
  remote (wire s) ReqPing = Raise e ->
  exists c s',
    get_freecad_connection remote s = (Raise e, s')
    /\ freecad_connection s' = Some c
    /\ get_freecad_connection remote s' = (Return c, s').
Proof.
  intros Hslot Hping.
  unfold get_freecad_connection at 1.
  unfold bind, read_connection, new_FreeCADConnection,
    write_connection, ping, call_server, logger, raise, ret. simpl.
  rewrite Hslot, Hping. simpl.
  do 2 eexists. split; [reflexivity|]. split; [reflexivity|].
  by apply get_connection_existing.
Qed.

End Lifecycle.

(** C7: with nothing listening, the ping of the first call raises.  The
    slot then still holds the connection object, and the second call returns
    it without a ping: one ping was sent in all. *)
Lemma unreachable_endpoint_leaves_handle :
  let c := mkConnection 0 "http://localhost:9875" in
  exists e s1,
    get_freecad_connection remote_unreachable (initial_state false) = (Raise e, s1)
    /\ freecad_connection s1 = Some c
    /\ get_freecad_connection remote_unreachable s1 = (Return c, s1)
    /\ count_pings (wire s1) = 1.
Proof. do 2 eexists. repeat split; reflexivity. Qed.

(** ** The envelope builder *)

Section Builder.

Variable rt : Runtime.

Lemma appended_text_only shot : appended rt true shot = Return [].
Proof. unfold appended. by rewrite andb_false_r. Qed.

Lemma appended_cases only_text shot :
  appended rt only_text shot = Return []
  \/ appended rt only_text shot = Return [ImageContent shot "image/png"]
  \/ appended rt only_text shot = Return [TextContent unavailable_note]
  \/ appended rt only_text shot
     = Raise (mkExc ValidationError (interp_text rt ValidationError shot)).
Proof. unfold appended. destruct shot, only_text; simpl; auto. Qed.

Lemma appended_optional only_text shot :
  appended rt only_text (optional_str shot) = Return (attachment only_text shot).
Proof. by destruct shot, only_text. Qed.

(** The builder raises only for a screenshot that is neither [None] nor a
    [str], and only when images are wanted. *)
Lemma appended_raises only_text shot e :
  appended rt only_text shot = Raise e ->
  only_text = false /\ shot <> PNone /\ (forall d, shot <> PStr d)
  /\ e = mkExc ValidationError (interp_text rt ValidationError shot).
Proof.
  unfold appended. destruct shot, only_text; simpl; try done;
    intros [= <-]; repeat split; done.
Qed.

Lemma appended_length only_text shot extra :
  appended rt only_text shot = Return extra -> length extra <= 1.
Proof.
  destruct (appended_cases only_text shot) as [-> | [-> | [-> | ->]]];
    intros [= <-]; simpl; lia.
Qed.

(** When the builder returns, it returns the reference it was given, and
    the object behind it has grown by [appended]; when it raises, nothing
    has changed.  No other object and no global changes in either case. *)
Lemma builder_eval r items shot s :
  store s !! r = Some items ->
  match appended rt (only_text_feedback s) shot with
  | Return extra =>
      exists s',
        add_screenshot_if_available rt r shot s = (Return r, s')
        /\ store s' !! r = Some (items ++ extra)
        /\ (forall r', r' <> r -> store s' !! r' = store s !! r')
        /\ only_text_feedback s' = only_text_feedback s
        /\ freecad_connection s' = freecad_connection s
        /\ wire s' = wire s
  | Raise e => add_screenshot_if_available rt r shot s = (Raise e, s)
  end.
Proof.
  intros Hr.
  unfold add_screenshot_if_available, bind, read_only_text_feedback, list_append, ret,
    appended, lift.
  destruct (is_not_none shot && negb (only_text_feedback s)); simpl.
  - destruct (new_ImageContent rt shot "image/png") as [item|e]; simpl; [|done].
    eexists. split; [reflexivity|]. simpl. rewrite lookup_alter_eq, Hr.
    split; [done|]. split; [|done]. intros r' Hne. by rewrite lookup_alter_ne.
  - destruct (negb (only_text_feedback s)); simpl.
    + eexists. split; [reflexivity|]. simpl. rewrite lookup_alter_eq, Hr.
      split; [done|]. split; [|done]. intros r' Hne. by rewrite lookup_alter_ne.
    + eexists. split; [reflexivity|]. rewrite app_nil_r. done.
Qed.

(** C10: the builder is append-only.  Whatever the screenshot value and
    the mode, the items of the list it is given stay, in order, at the
    front; at most one item follows them; every other list object is
    untouched; and a reference it returns is the one passed in.  It returns
    for [None], for a [str] and in text-only mode.  It raises only the
    validation error of the image item, for a screenshot that is neither,
    and then the list is as it was. *)
Theorem add_screenshot_if_available_append_only r items shot s :
  store s !! r = Some items ->
  exists extra o s',
    add_screenshot_if_available rt r shot s = (o, s')
    /\ store s' !! r = Some (items ++ extra)
    /\ length extra <= 1
    /\ (forall r', r' <> r -> store s' !! r' = store s !! r')
    /\ (forall r0, o = Return r0 -> r0 = r)
    /\ (shot = PNone \/ (exists d, shot = PStr d) \/ only_text_feedback s = true ->
        o = Return r)
    /\ (forall e, o = Raise e ->
        e = mkExc ValidationError (interp_text rt ValidationError shot)
        /\ extra = [] /\ s' = s).
Proof.
  intros Hr. pose proof (builder_eval r items shot s Hr) as H.
  destruct (appended rt (only_text_feedback s) shot) as [extra|e] eqn:Happ.
  - destruct H as (s' & Hrun & Hstore & Hframe & _).
    exists extra, (Return r), s'.
    split; [done|]. split; [done|]. split; [by eapply appended_length|].
    split; [done|]. split; [by intros r0 [= <-]|]. split; [done|].
    intros e0 [=].
  - apply appended_raises in Happ as (Hmode & Hnone & Hstr & He).
    exists [], (Raise e), s.
    split; [done|]. split; [by rewrite app_nil_r|]. split; [simpl; lia|].
    split; [done|]. split; [intros r0 [=]|]. split.
    + intros [-> | [[d ->] | Htext]]; [done | by destruct (Hstr d) | congruence].
    + intros e0 [= <-]. done.
Qed.

(** In text-only mode the builder does nothing at all. *)
Lemma builder_text_only r shot s :
  only_text_feedback s = true ->
  add_screenshot_if_available rt r shot s = (Return r, s).
Proof.
  intros Hmode.
  unfold add_screenshot_if_available, bind, read_only_text_feedback, ret.
  rewrite Hmode, andb_false_r. done.
Qed.

(** The closing lines of a handler branch: the text item, then whatever
    the builder appends; or the builder's exception. *)
Lemma respond_eval text shot s :
  exists s',
    respond rt text shot s
    = ((extra <- appended rt (only_text_feedback s) shot;
        Return (TextContent text :: extra))%outcome, s')
    /\ only_text_feedback s' = only_text_feedback s
    /\ freecad_connection s' = freecad_connection s
    /\ wire s' = wire s
    /\ log s' = log s.
Proof.
  unfold respond, add_screenshot_if_available, new_list, list_items, list_append,
    read_only_text_feedback, bind, ret, appended, lift. simpl.
  destruct (is_not_none shot && negb (only_text_feedback s)); simpl.
  - destruct (new_ImageContent rt shot "image/png") as [item|e]; simpl.
    + eexists; split; [by rewrite lookup_alter_eq, lookup_insert_eq|done].
    + eexists; split; [reflexivity|done].
  - destruct (negb (only_text_feedback s)); simpl.
    + eexists; split; [by rewrite lookup_alter_eq, lookup_insert_eq|done].
    + eexists; split; [by rewrite lookup_insert_eq|done].
Qed.

End Builder.

Lemma add_screenshot_if_available_append_only_example :
  let s := set_store {[ 0 := [TextContent "done"]; 1 := [TextContent "other"] ]}
             (connected_state false) in
  store s !! 0 = Some [TextContent "done"]
  /\ exists extra o s',
       add_screenshot_if_available example_runtime 0 png s = (o, s')
       /\ store s' !! 0 = Some ([TextContent "done"] ++ extra)
       /\ length extra <= 1
       /\ (forall r', r' <> 0 -> store s' !! r' = store s !! r')
       /\ (forall r0, o = Return r0 -> r0 = 0)
       /\ (png = PNone \/ (exists d, png = PStr d) \/ only_text_feedback s = true ->
           o = Return 0)
       /\ (forall e, o = Raise e ->
           e = mkExc ValidationError (interp_text example_runtime ValidationError png)
           /\ extra = [] /\ s' = s).
Proof.
  split; [reflexivity|].
  apply (add_screenshot_if_available_append_only example_runtime 0 [TextContent "done"] png).
  reflexivity.
Defined.

(** ** The module globals *)

Section Globals.

Variable rt : Runtime.
Variable remote : Remote.

Lemma keeps_ret {A} (a : A) : keeps_globals (ret a).
Proof. done. Qed.

Lemma keeps_lift {A} (o : Outcome A) : keeps_globals (lift o).
Proof. done. Qed.

Lemma keeps_logger lvl msg : keeps_globals (logger lvl msg).
Proof. done. Qed.

Lemma keeps_call_server self req : keeps_globals (call_server remote self req).
Proof. done. Qed.

Lemma keeps_new_list items : keeps_globals (new_list items).
Proof. done. Qed.

Lemma keeps_list_items r : keeps_globals (list_items r).
Proof. done. Qed.

Lemma keeps_bind {A B} (m : M A) (k : A -> M B) :
  keeps_globals m -> (forall a, keeps_globals (k a)) -> keeps_globals (bind m k).
Proof.
  intros Hm Hk s. unfold bind. specialize (Hm s).
  destruct (m s) as [[a|e] s1]; simpl in *; [|done].
  destruct (Hk a s1) as [-> ->]. done.
Qed.

Lemma keeps_try_except {A} (body : M A) (handler : Exc -> M A) :
  keeps_globals body -> (forall e, keeps_globals (handler e)) ->
  keeps_globals (try_except body handler).
Proof.
  intros Hb Hh s. unfold try_except. specialize (Hb s).
  destruct (body s) as [[a|e] s1]; simpl in *; [done|].
  destruct (Hh e s1) as [-> ->]. done.
Qed.

Lemma keeps_if {A} (b : bool) (m1 m2 : M A) :
  keeps_globals m1 -> keeps_globals m2 -> keeps_globals (if b then m1 else m2).
Proof. by destruct b. Qed.

Lemma keeps_builder r shot : keeps_globals (add_screenshot_if_available rt r shot).
Proof.
  intros s.
  unfold add_screenshot_if_available, bind, read_only_text_feedback, list_append, ret, lift.
  destruct (is_not_none shot && negb (only_text_feedback s)).
  - by destruct (new_ImageContent rt shot "image/png").
  - by destruct (negb (only_text_feedback s)).
Qed.

Ltac keeps :=
  repeat first
    [ apply keeps_ret | apply keeps_lift | apply keeps_logger | apply keeps_call_server
    | apply keeps_new_list | apply keeps_list_items | apply keeps_builder
    | apply keeps_bind; [|intros ?]
    | apply keeps_try_except; [|intros ?]
    | apply keeps_if
    | progress cbv zeta ].

Lemma keeps_guard self view : keeps_globals (get_active_screenshot rt remote self view).
Proof. unfold get_active_screenshot, dict_get, py_in. keeps. Qed.

(** What follows the obtaining of the session, in every handler, leaves the
    globals alone. *)
Lemma handle_continuation op :
  exists K,
    handle rt remote op = bind (get_freecad_connection remote) K
    /\ forall c, keeps_globals (K c).
Proof.
  destruct op; simpl; eexists; (split; [reflexivity|]); intros c;
    unfold subscript, conn_create_document, conn_create_object, conn_edit_object,
      conn_delete_object, conn_execute_code, conn_insert_part_from_library,
      conn_get_objects, conn_get_object, conn_get_parts_list;
    keeps; apply keeps_guard.
Qed.

(** No handler changes the feedback mode. *)
Lemma handle_keeps_mode op s :
  only_text_feedback (snd (handle rt remote op s)) = only_text_feedback s.
Proof.
  destruct (handle_continuation op) as (K & -> & HK). unfold bind.
  destruct (get_freecad_connection remote s) as [[c|e] s1] eqn:Hget;
    apply get_connection_frame in Hget as [Hmode _]; simpl; [|done].
  destruct (HK c s1) as [-> _]. done.
Qed.

(** No handler takes a handle out of the slot or replaces it. *)
Lemma handle_keeps_slot op s c :
  freecad_connection s = Some c ->
  freecad_connection (snd (handle rt remote op s)) = Some c.
Proof.
  intros Hslot. destruct (handle_continuation op) as (K & -> & HK). unfold bind.
  rewrite (get_connection_existing remote s c Hslot).
  destruct (HK c s) as [_ ->]. done.
Qed.

Lemma serve_keeps_slot ops s c :
  freecad_connection s = Some c ->
  freecad_connection (serve rt remote ops s) = Some c.
Proof.
  revert s. induction ops as [|op ops IH]; intros s Hslot; simpl; [done|].
  apply IH. by apply handle_keeps_slot.
Qed.

Lemma serve_keeps_mode ops s :
  only_text_feedback (serve rt remote ops s) = only_text_feedback s.
Proof.
  revert s. induction ops as [|op ops IH]; intros s; simpl; [done|].
  rewrite IH. apply handle_keeps_mode.
Qed.

(** C6: once a call has returned a handle, the next call returns the same
    handle and leaves the whole state as it is, so it sends no ping; and so
    does a call made after any number of handlers have run in between. *)
Theorem get_freecad_connection_idempotent s c s1 :
  get_freecad_connection remote s = (Return c, s1) ->
  freecad_connection s1 = Some c
  /\ get_freecad_connection remote s1 = (Return c, s1)
  /\ count_pings (wire (snd (get_freecad_connection remote s1))) = count_pings (wire s1)
  /\ forall ops,
       get_freecad_connection remote (serve rt remote ops s1)
         = (Return c, serve rt remote ops s1).
Proof.
  intros Hget. apply get_connection_returned in Hget as Hslot.
  rewrite (get_connection_existing remote s1 c Hslot).
  repeat split; try done.
  intros ops. apply get_connection_existing. by apply serve_keeps_slot.
Qed.

End Globals.

Lemma get_freecad_connection_idempotent_example :
  let remote := scripted_remote probe_supported (Return png) done_result in
  let c := mkConnection 0 "http://localhost:9875" in
  let s1 := connected_state false in
  get_freecad_connection remote (initial_state false) = (Return c, s1)
  /\ freecad_connection s1 = Some c
  /\ get_freecad_connection remote s1 = (Return c, s1)
  /\ count_pings (wire (snd (get_freecad_connection remote s1))) = count_pings (wire s1)
  /\ forall ops,
       get_freecad_connection remote (serve example_runtime remote ops s1)
         = (Return c, serve example_runtime remote ops s1).
Proof.
  split; [reflexivity|].
  apply (get_freecad_connection_idempotent example_runtime
           (scripted_remote probe_supported (Return png) done_result)
           (initial_state false) (mkConnection 0 "http://localhost:9875")
           (connected_state false)).
  reflexivity.
Defined.

(** ** The handlers *)

Section Handlers.

Variable rt : Runtime.
Variable remote : Remote.

(** *** The handlers are instances of the two shapes *)

Lemma feedback_tool_sound op t :
  feedback_tool_of rt op = Some t ->
  forall s, handle rt remote op s = run_feedback_tool rt remote t s.
Proof.
  intros Ht s.
  destruct op; simpl in Ht; inversion Ht; subst; clear Ht;
    cbv [handle run_feedback_tool feedback_body failure_item respond reading
         create_object edit_object delete_object execute_code insert_part_from_library
         create_sketch sketch_add_point sketch_add_line sketch_add_circle sketch_add_arc
         sketch_add_rectangle sketch_add_polyline sketch_add_ellipse
         sketch_add_regular_polygon sketch_add_constraint sketch_close_edit
         conn_create_object conn_edit_object conn_delete_object conn_execute_code
         conn_insert_part_from_library subscript lift outcome_bind
         prepare success_text failure_prefix bind try_except ret];
    destruct (get_freecad_connection remote s) as [[c|e] s1]; try reflexivity;
    try (destruct (point_pairs points) as [pairs|e]; try reflexivity);
    (destruct (call_server remote c _ _) as [[res|e] s2]; try reflexivity;
     destruct (get_active_screenshot rt remote c "Isometric" s2) as [[shot|e] s3];
       try reflexivity;
     destruct (py_getitem rt res "success") as [ok|e]; try reflexivity;
     destruct (truthy ok); try reflexivity;
     destruct (py_getitem rt res _) as [v|e]; reflexivity).
Qed.

Lemma query_tool_sound op q :
  query_tool_of op = Some q ->
  forall s, handle rt remote op s = run_query_tool rt remote q s.
Proof.
  intros Hq s. destruct op; simpl in Hq; inversion Hq; subst; reflexivity.
Qed.

Lemma operation_cases op :
  (exists t, feedback_tool_of rt op = Some t)
  \/ (exists q, query_tool_of op = Some q)
  \/ (exists name, op = CreateDocument name)
  \/ (exists view, op = GetView view)
  \/ op = GetPartsList.
Proof. destruct op; simpl; eauto 10. Qed.

Lemma builds_envelope_cases op :
  builds_envelope op = true ->
  (exists t, feedback_tool_of rt op = Some t) \/ (exists q, query_tool_of op = Some q).
Proof. destruct op; simpl; eauto; done. Qed.

(** *** What a handler can return *)

Lemma failure_item_eval prefix e s :
  failure_item prefix e s =
    (Return [TextContent (prefix +:+ exc_str e)],
     set_log (log s ++ [(ERROR, prefix +:+ exc_str e)]) s).
Proof. reflexivity. Qed.

Lemma feedback_body_result t c s items s' :
  feedback_body rt remote t c s = (Return items, s') ->
  exists res txt shot extra,
    primary_text rt t res = Return txt
    /\ appended rt (only_text_feedback s) shot = Return extra
    /\ items = TextContent txt :: extra.
Proof.
  unfold feedback_body, bind, subscript, call_server. unfold lift.
  destruct (prepare t) as [req|e]; [|done].
  destruct (remote (wire s) req) as [res|e]; [|done].
  destruct (guard_total rt remote c "Isometric" (set_wire (wire s ++ [req]) s))
    as (shot & s2 & -> & Hflag & _).
  destruct (py_getitem rt res "success") as [ok|e] eqn:Hok; [|done].
  destruct (truthy ok) eqn:Htr.
  - destruct (success_text t res) as [txt|e] eqn:Htxt; [|done].
    destruct (respond_eval rt txt shot s2) as (s3 & -> & _).
    destruct (appended rt (only_text_feedback s2) shot) as [extra|e] eqn:Happ; [|done].
    intros [= <- <-]. exists res, txt, shot, extra.
    unfold primary_text. rewrite Hok. simpl. rewrite Htr, <- Happ, Hflag. done.
  - destruct (py_getitem rt res "error") as [err|e] eqn:Herr; [|done].
    destruct (respond_eval rt (failure_prefix t +:+ py_str rt err) shot s2) as (s3 & -> & _).
    destruct (appended rt (only_text_feedback s2) shot) as [extra|e] eqn:Happ; [|done].
    intros [= <- <-]. exists res, (failure_prefix t +:+ py_str rt err), shot, extra.
    unfold primary_text. rewrite Hok. simpl. rewrite Htr, Herr, <- Happ, Hflag. done.
Qed.

Lemma run_feedback_tool_result t s items s' :
  run_feedback_tool rt remote t s = (Return items, s') ->
  (exists e, items = [TextContent (failure_prefix t +:+ exc_str e)])
  \/ (exists res txt shot extra,
        primary_text rt t res = Return txt
        /\ appended rt (only_text_feedback s) shot = Return extra
        /\ items = TextContent txt :: extra).
Proof.
  unfold run_feedback_tool, bind, try_except.
  destruct (get_freecad_connection remote s) as [[c|e] s1] eqn:Hget; [|done].
  apply get_connection_frame in Hget as [Hflag _].
  destruct (feedback_body rt remote t c s1) as [[items0|e] s2] eqn:Hbody.
  - intros [= <- <-]. right. rewrite <- Hflag. by eapply feedback_body_result.
  - rewrite failure_item_eval. intros [= <- <-]. left; eauto.
Qed.

Lemma query_body_result q c s items s' :
  query_body rt remote q c s = (Return items, s') ->
  exists answer shot extra,
    appended rt (only_text_feedback s) shot = Return extra
    /\ items = TextContent (json_dumps rt answer) :: extra.
Proof.
  unfold query_body, bind.
  destruct (guard_total rt remote c "Isometric" s) as (shot & s1 & -> & Hflag & _).
  unfold call_server.
  destruct (remote (wire s1) (query q)) as [answer|e]; [|done].
  destruct (respond_eval rt (json_dumps rt answer) shot (set_wire (wire s1 ++ [query q]) s1))
    as (s3 & -> & _).
  simpl.
  destruct (appended rt (only_text_feedback s1) shot) as [extra|e] eqn:Happ; [|done].
  intros [= <- <-]. exists answer, shot, extra. by rewrite <- Happ, Hflag.
Qed.

Lemma run_query_tool_result q s items s' :
  run_query_tool rt remote q s = (Return items, s') ->
  (exists e, items = [TextContent (query_failure_prefix q +:+ exc_str e)])
  \/ (exists answer shot extra,
        appended rt (only_text_feedback s) shot = Return extra
        /\ items = TextContent (json_dumps rt answer) :: extra).
Proof.
  unfold run_query_tool, bind, try_except.
  destruct (get_freecad_connection remote s) as [[c|e] s1] eqn:Hget; [|done].
  apply get_connection_frame in Hget as [Hflag _].
  destruct (query_body rt remote q c s1) as [[items0|e] s2] eqn:Hbody.
  - intros [= <- <-]. right. rewrite <- Hflag. by eapply query_body_result.
  - rewrite failure_item_eval. intros [= <- <-]. left; eauto.
Qed.

Lemma create_document_result name s items s' :
  create_document rt remote name s = (Return items, s') ->
  exists text, items = [TextContent text].
Proof.
  unfold create_document, bind, try_except, conn_create_document, call_server,
    subscript, logger, ret.
  unfold lift.
  destruct (get_freecad_connection remote s) as [[c|e] s1]; [|done].
  destruct (remote (wire s1) (ReqCreateDocument name)) as [res|e];
    [|intros [= <- <-]; eauto].
  destruct (py_getitem rt res "success") as [ok|e]; [|intros [= <- <-]; eauto].
  destruct (truthy ok).
  - destruct (py_getitem rt res "document_name") as [v|e]; intros [= <- <-]; eauto.
  - destruct (py_getitem rt res "error") as [v|e]; intros [= <- <-]; eauto.
Qed.

Lemma get_parts_list_result s items s' :
  get_parts_list rt remote s = (Return items, s') ->
  exists text, items = [TextContent text].
Proof.
  unfold get_parts_list, bind, conn_get_parts_list, call_server, ret.
  destruct (get_freecad_connection remote s) as [[c|e] s1]; [|done].
  destruct (remote (wire s1) ReqGetPartsList) as [parts|e]; [|done].
  destruct (truthy parts); intros [= <- <-]; eauto.
Qed.

Lemma get_view_result view s items s' :
  get_view rt remote view s = (Return items, s') ->
  (exists data, items = [ImageContent (PStr data) "image/png"])
  \/ (exists text, text <> unavailable_note /\ items = [TextContent text]).
Proof.
  unfold get_view, bind, ret, lift.
  destruct (get_freecad_connection remote s) as [[c|e] s1]; [|done].
  destruct (guard_total rt remote c (view_str view) s1) as (shot & s2 & -> & _).
  destruct shot; simpl; intros [= <- <-]; [|eauto].
  right. eexists. split; [|reflexivity]. done.
Qed.

(** No primary text is the note. *)
Lemma append_head_neq (a b : ascii) (x y z : string) :
  a <> b -> String a x +:+ y <> String b z.
Proof. intros Hab [= ?]. done. Qed.

Lemma primary_text_not_note op t res txt :
  feedback_tool_of rt op = Some t ->
  primary_text rt t res = Return txt ->
  txt <> unavailable_note.
Proof.
  intros Ht. unfold primary_text, outcome_bind.
  destruct (py_getitem rt res "success") as [ok|e]; [|done].
  destruct (truthy ok).
  - destruct op; simpl in Ht; inversion Ht; subst; clear Ht; simpl;
      unfold reading, outcome_bind;
      try (destruct (py_getitem rt res _); [|done]);
      try (destruct constraint_type);
      intros [= <-]; by apply append_head_neq.
  - destruct (py_getitem rt res "error") as [err|e]; [|done].
    destruct op; simpl in Ht; inversion Ht; subst; clear Ht; simpl;
      intros [= <-]; by apply append_head_neq.
Qed.

(** Every envelope a handler other than [get_view] returns is one text
    item, followed by what the builder appended if the builder ran. *)
Lemma handle_result op s items s' :
  (forall view, op <> GetView view) ->
  handle rt remote op s = (Return items, s') ->
  exists text,
    items = [TextContent text]
    \/ exists shot extra,
         appended rt (only_text_feedback s) shot = Return extra
         /\ items = TextContent text :: extra.
Proof.
  intros Hview Hrun.
  destruct (operation_cases op) as [[t Ht]|[[q Hq]|[[name ->]|[[view ->]| ->]]]].
  - rewrite (feedback_tool_sound op t Ht) in Hrun.
    apply run_feedback_tool_result in Hrun as [[e ->]|(res & txt & shot & extra & _ & Happ & ->)];
      [exists (failure_prefix t +:+ exc_str e) | exists txt]; eauto.
  - rewrite (query_tool_sound op q Hq) in Hrun.
    apply run_query_tool_result in Hrun as [[e ->]|(answer & shot & extra & Happ & ->)];
      [exists (query_failure_prefix q +:+ exc_str e)
      | exists (json_dumps rt answer)]; eauto.
  - apply create_document_result in Hrun as [text ->]. exists text; auto.
  - by destruct (Hview view).
  - apply get_parts_list_result in Hrun as [text ->]. exists text; auto.
Qed.

End Handlers.

(** *** Text-only mode *)

Section TextOnly.

Variable rt : Runtime.
Variable remote : Remote.

(** C1, amended: in text-only mode no handler other than [get_view]
    returns an image item, whatever the remote answers and whether or not a
    screenshot was obtained. *)
Theorem text_only_no_image op s items s' :
  only_text_feedback s = true ->
  (forall view, op <> GetView view) ->
  handle rt remote op s = (Return items, s') ->
  count_images items = 0.
Proof.
  intros Hmode Hview Hrun.
  destruct (handle_result rt remote op s items s' Hview Hrun)
    as (text & [-> | (shot & extra & Happ & ->)]); [done|].
  rewrite Hmode, appended_text_only in Happ. by injection Happ as <-.
Qed.

(** C3, amended: an envelope assembled in text-only mode is the primary
    text item alone; the builder appends neither an image nor a note. *)
Theorem text_only_envelope_is_primary_text op s items s' :
  only_text_feedback s = true ->
  builds_envelope op = true ->
  handle rt remote op s = (Return items, s') ->
  (exists text, items = [TextContent text])
  /\ count_images items = 0
  /\ (forall r shot, add_screenshot_if_available rt r shot s = (Return r, s)).
Proof.
  intros Hmode Hbuilds Hrun.
  assert (Hview : forall view, op <> GetView view) by (by intros view ->).
  destruct (handle_result rt remote op s items s' Hview Hrun) as (text & Hitems).
  assert (items = [TextContent text]) as ->.
  { destruct Hitems as [-> | (shot & extra & Happ & ->)]; [done|].
    rewrite Hmode, appended_text_only in Happ. by injection Happ as <-. }
  split; [eauto|]. split; [done|]. intros r shot'. by apply builder_text_only.
Qed.

End TextOnly.

Lemma text_only_no_image_example :
  let remote := scripted_remote probe_supported (Return png) done_result in
  only_text_feedback (connected_state true) = true
  /\ (exists s', handle example_runtime remote (ExecuteCode "print(1)") (connected_state true)
                 = (Return [TextContent "Code executed successfully: done"], s'))
  /\ count_images [TextContent "Code executed successfully: done"] = 0.
Proof.
  split; [reflexivity|]. split; [eexists; reflexivity|].
  eapply (text_only_no_image example_runtime
            (scripted_remote probe_supported (Return png) done_result)
            (ExecuteCode "print(1)") (connected_state true)).
  - reflexivity.
  - intros view. discriminate.
  - reflexivity.
Defined.

(** C1 as stated fails on [get_view]: in text-only mode, with a view that
    renders, it returns the image. *)
Lemma get_view_ignores_text_only :
  let remote := scripted_remote probe_supported (Return png) done_result in
  only_text_feedback (connected_state true) = true
  /\ exists s', handle example_runtime remote (GetView Isometric) (connected_state true)
                = (Return [ImageContent png "image/png"], s')
  /\ count_images [ImageContent png "image/png"] = 1.
Proof. split; [reflexivity|]. eexists. split; reflexivity. Qed.

Lemma text_only_envelope_is_primary_text_example :
  let remote := scripted_remote probe_supported (Return png) done_result in
  let s := connected_state true in
  only_text_feedback s = true
  /\ builds_envelope (ExecuteCode "print(1)") = true
  /\ (exists text, [TextContent "Code executed successfully: done"] = [TextContent text])
  /\ count_images [TextContent "Code executed successfully: done"] = 0
  /\ (forall r shot, add_screenshot_if_available example_runtime r shot s = (Return r, s)).
Proof.
  split; [reflexivity|]. split; [reflexivity|].
  eapply (text_only_envelope_is_primary_text example_runtime
            (scripted_remote probe_supported (Return png) done_result)
            (ExecuteCode "print(1)") (connected_state true)); reflexivity.
Defined.

(** C3 as stated fails: in text-only mode, with a screenshot at hand, the
    list given to the builder comes back as it was, and the envelope of a
    handler holds no note. *)
Lemma text_only_substitutes_no_note :
  let remote := scripted_remote probe_supported (Return png) done_result in
  let s := set_store {[ 0 := [TextContent "done"] ]} (connected_state true) in
  only_text_feedback s = true
  /\ add_screenshot_if_available example_runtime 0 png s = (Return 0, s)
  /\ store s !! 0 = Some [TextContent "done"]
  /\ (exists s', handle example_runtime remote (ExecuteCode "print(1)") (connected_state true)
                 = (Return [TextContent "Code executed successfully: done"], s'))
  /\ ~ In (TextContent unavailable_note) [TextContent "Code executed successfully: done"]
  /\ ~ In (TextContent unavailable_note) [TextContent "done"].
Proof.
  split; [reflexivity|]. split; [reflexivity|]. split; [reflexivity|].
  split; [eexists; reflexivity|].
  split; intros [H|[]]; discriminate H.
Qed.

(** *** The envelope invariant *)

Lemma single_text_ok text : envelope_ok [TextContent text].
Proof. unfold envelope_ok, count_images. simpl. repeat split; try lia. Qed.

Lemma single_image_ok shot mime : envelope_ok [ImageContent shot mime].
Proof.
  unfold envelope_ok, count_images. simpl. repeat split; try lia.
  intros [_ [H|[]]]. discriminate H.
Qed.

Lemma built_ok rt text only_text shot extra :
  text <> unavailable_note ->
  appended rt only_text shot = Return extra ->
  envelope_ok (TextContent text :: extra).
Proof.
  intros Hne.
  destruct (appended_cases rt only_text shot) as [-> | [-> | [-> | ->]]];
    intros [= <-];
    unfold envelope_ok, count_images; simpl; repeat split; try lia.
  intros [_ [H|[H|[]]]]; [|discriminate H]. injection H as H. done.
Qed.

Section Envelope.

Variable rt : Runtime.
Variable remote : Remote.

(** [json.dumps] yields JSON, which the note is not. *)
Hypothesis json_is_not_the_note : forall v, json_dumps rt v <> unavailable_note.

(** C4: whatever the operation, the remote's answers, the screenshot and
    the mode, a returned envelope has at least one item, at most one image
    item, and never both an image item and the note. *)
Theorem envelope_invariant op s items s' :
  handle rt remote op s = (Return items, s') ->
  1 <= length items
  /\ count_images items <= 1
  /\ ~ (1 <= count_images items /\ In (TextContent unavailable_note) items).
Proof.
  intros Hrun. change (envelope_ok items).
  destruct (operation_cases rt op) as [[t Ht]|[[q Hq]|[[name ->]|[[view ->]| ->]]]].
  - rewrite (feedback_tool_sound rt remote op t Ht) in Hrun.
    apply run_feedback_tool_result
      in Hrun as [[e ->]|(res & txt & shot & extra & Htxt & Happ & ->)].
    + apply single_text_ok.
    + eapply built_ok; [|exact Happ]. by eapply primary_text_not_note.
  - rewrite (query_tool_sound rt remote op q Hq) in Hrun.
    apply run_query_tool_result in Hrun as [[e ->]|(answer & shot & extra & Happ & ->)].
    + apply single_text_ok.
    + eapply built_ok; [|exact Happ]. done.
  - apply create_document_result in Hrun as [text ->]. apply single_text_ok.
  - apply get_view_result in Hrun as [[shot ->]|(text & _ & ->)].
    + apply single_image_ok.
    + apply single_text_ok.
  - apply get_parts_list_result in Hrun as [text ->]. apply single_text_ok.
Qed.

End Envelope.

Lemma envelope_invariant_example :
  let remote := scripted_remote probe_supported (Return png) duplicate_name_result in
  let items := [TextContent "Failed to create object: DuplicateName";
                ImageContent png "image/png"] in
  (forall v, json_dumps example_runtime v <> unavailable_note)
  /\ (exists s', handle example_runtime remote
                   (CreateObject "Doc" "Part::Box" "Box" None None) (connected_state false)
                 = (Return items, s'))
  /\ 1 <= length items
  /\ count_images items <= 1
  /\ ~ (1 <= count_images items /\ In (TextContent unavailable_note) items).
Proof.
  split; [intros v; discriminate|]. split; [eexists; reflexivity|].
  eapply (envelope_invariant example_runtime
            (scripted_remote probe_supported (Return png) duplicate_name_result)
            (fun v => _)
            (CreateObject "Doc" "Part::Box" "Box" None None) (connected_state false)).
  reflexivity.
  Unshelve. discriminate.
Defined.

(** *** The handler boundary *)

Section Boundary.

Variable rt : Runtime.
Variable remote : Remote.

(** An exception raised while the session is obtained leaves the handler:
    [get_freecad_connection] is called before the [try]. *)
Lemma handle_propagates op s e s1 :
  get_freecad_connection remote s = (Raise e, s1) ->
  handle rt remote op s = (Raise e, s1).
Proof.
  intros Hget.
  destruct op; simpl;
    unfold create_document, create_object, edit_object, delete_object, execute_code,
      get_view, insert_part_from_library, get_objects, get_object, get_parts_list,
      create_sketch, sketch_add_point, sketch_add_line, sketch_add_circle,
      sketch_add_arc, sketch_add_rectangle, sketch_add_polyline, sketch_add_ellipse,
      sketch_add_regular_polygon, sketch_add_constraint, sketch_close_edit;
    unfold bind at 1; by rewrite Hget.
Qed.

Lemma run_feedback_tool_returns t s c :
  freecad_connection s = Some c ->
  exists items s', run_feedback_tool rt remote t s = (Return items, s') /\ items <> [].
Proof.
  intros Hslot. unfold run_feedback_tool, bind, try_except.
  rewrite (get_connection_existing remote s c Hslot).
  destruct (feedback_body rt remote t c s) as [[items|e] s1] eqn:Hbody.
  - apply feedback_body_result in Hbody as (res & txt & shot & extra & _ & _ & ->). eauto.
  - rewrite failure_item_eval. eauto.
Qed.

Lemma run_query_tool_returns q s c :
  freecad_connection s = Some c ->
  exists items s', run_query_tool rt remote q s = (Return items, s') /\ items <> [].
Proof.
  intros Hslot. unfold run_query_tool, bind, try_except.
  rewrite (get_connection_existing remote s c Hslot).
  destruct (query_body rt remote q c s) as [[items|e] s1] eqn:Hbody.
  - apply query_body_result in Hbody as (answer & shot & extra & _ & ->). eauto.
  - rewrite failure_item_eval. eauto.
Qed.

Lemma create_document_returns name s c :
  freecad_connection s = Some c ->
  exists items s', create_document rt remote name s = (Return items, s') /\ items <> [].
Proof.
  intros Hslot.
  unfold create_document, bind, try_except, conn_create_document, call_server,
    subscript, logger, ret.
  unfold lift. rewrite (get_connection_existing remote s c Hslot).
  destruct (remote (wire s) (ReqCreateDocument name)) as [res|e]; [|eauto].
  destruct (py_getitem rt res "success") as [ok|e]; [|eauto].
  destruct (truthy ok).
  - destruct (py_getitem rt res "document_name") as [v|e]; eauto.
  - destruct (py_getitem rt res "error") as [v|e]; eauto.
Qed.

Lemma run_feedback_tool_request_fails t s c req e :
  freecad_connection s = Some c ->
  prepare t = Return req ->
  remote (wire s) req = Raise e ->
  exists s',
    run_feedback_tool rt remote t s
      = (Return [TextContent (failure_prefix t +:+ exc_str e)], s').
Proof.
  intros Hslot Hreq Hfail. unfold run_feedback_tool, bind, try_except.
  rewrite (get_connection_existing remote s c Hslot).
  unfold feedback_body, bind, call_server. unfold lift. rewrite Hreq, Hfail.
  rewrite failure_item_eval. eauto.
Qed.

Lemma run_query_tool_request_fails q s c shot s1 e :
  freecad_connection s = Some c ->
  get_active_screenshot rt remote c "Isometric" s = (Return shot, s1) ->
  remote (wire s1) (query q) = Raise e ->
  exists s',
    run_query_tool rt remote q s
      = (Return [TextContent (query_failure_prefix q +:+ exc_str e)], s').
Proof.
  intros Hslot Hguard Hfail. unfold run_query_tool, bind, try_except.
  rewrite (get_connection_existing remote s c Hslot).
  unfold query_body, bind, call_server. rewrite Hguard, Hfail.
  rewrite failure_item_eval. eauto.
Qed.

Lemma create_document_request_fails name s c e :
  freecad_connection s = Some c ->
  remote (wire s) (ReqCreateDocument name) = Raise e ->
  exists s',
    create_document rt remote name s
      = (Return [TextContent ("Failed to create document: " +:+ exc_str e)], s').
Proof.
  intros Hslot Hfail.
  unfold create_document, bind, try_except, conn_create_document, call_server, logger, ret.
  rewrite (get_connection_existing remote s c Hslot), Hfail. eauto.
Qed.

(** C2, amended.  An exception raised while the session is obtained
    leaves the handler.  Once the slot holds a handle, every handler other
    than [get_parts_list] and [get_view], the two without a [try], returns
    a non-empty item sequence whatever the remote does; and when the remote
    call of the handler raises, that sequence is the one text item made of
    the handler's failure prefix and the text of the exception. *)
Theorem handler_boundary op s c :
  freecad_connection s = Some c ->
  op <> GetPartsList ->
  (forall view, op <> GetView view) ->
  (exists items s', handle rt remote op s = (Return items, s') /\ items <> [])
  /\ (forall t req e,
        feedback_tool_of rt op = Some t ->
        prepare t = Return req ->
        remote (wire s) req = Raise e ->
        exists s', handle rt remote op s
                   = (Return [TextContent (failure_prefix t +:+ exc_str e)], s'))
  /\ (forall q shot s1 e,
        query_tool_of op = Some q ->
        get_active_screenshot rt remote c "Isometric" s = (Return shot, s1) ->
        remote (wire s1) (query q) = Raise e ->
        exists s', handle rt remote op s
                   = (Return [TextContent (query_failure_prefix q +:+ exc_str e)], s'))
  /\ (forall name e,
        op = CreateDocument name ->
        remote (wire s) (ReqCreateDocument name) = Raise e ->
        exists s', handle rt remote op s
                   = (Return [TextContent ("Failed to create document: " +:+ exc_str e)], s'))
  /\ (forall s0 e s1,
        get_freecad_connection remote s0 = (Raise e, s1) ->
        handle rt remote op s0 = (Raise e, s1)).
Proof.
  intros Hslot Hparts Hview. split; [|split; [|split; [|split]]].
  - destruct (operation_cases rt op) as [[t Ht]|[[q Hq]|[[name ->]|[[view ->]| ->]]]].
    + rewrite (feedback_tool_sound rt remote op t Ht). by eapply run_feedback_tool_returns.
    + rewrite (query_tool_sound rt remote op q Hq). by eapply run_query_tool_returns.
    + by eapply create_document_returns.
    + by destruct (Hview view).
    + done.
  - intros t req e Ht Hreq Hfail. rewrite (feedback_tool_sound rt remote op t Ht).
    by eapply run_feedback_tool_request_fails.
  - intros q shot s1 e Hq Hguard Hfail. rewrite (query_tool_sound rt remote op q Hq).
    by eapply run_query_tool_request_fails.
  - intros name e -> Hfail. by eapply create_document_request_fails.
  - intros s0 e s1. apply handle_propagates.
Qed.

End Boundary.

Lemma handler_boundary_example :
  let remote := scripted_remote probe_supported (Return png) timed_out in
  let op := ExecuteCode "print(1)" in
  let s := connected_state false in
  freecad_connection s = Some (mkConnection 0 "http://localhost:9875")
  /\ op <> GetPartsList
  /\ (forall view, op <> GetView view)
  /\ remote (wire s) (ReqExecuteCode (UserCode "print(1)")) = timed_out
  /\ exists s', handle example_runtime remote op s
                = (Return [TextContent "Failed to execute code: timed out"], s').
Proof.
  split; [reflexivity|]. split; [discriminate|]. split; [discriminate|].
  split; [reflexivity|].
  destruct (handler_boundary example_runtime
              (scripted_remote probe_supported (Return png) timed_out)
              (ExecuteCode "print(1)") (connected_state false)
              (mkConnection 0 "http://localhost:9875") eq_refl)
    as (_ & Hfails & _); [discriminate|discriminate|].
  destruct (Hfails _ (ReqExecuteCode (UserCode "print(1)"))
              (mkExc TransportError "timed out") eq_refl eq_refl eq_refl) as [s' Hrun].
  exists s'. exact Hrun.
Defined.

(** C2 as stated fails where the session is obtained: when the ping comes
    back false, [create_document] raises to its caller the exception that
    [get_freecad_connection] raised. *)
Lemma create_document_raises_without_session :
  exists s',
    handle example_runtime remote_not_alive (CreateDocument "Foo") (initial_state false)
      = (Raise (mkExc Exception
                  "Failed to connect to FreeCAD. Make sure the FreeCAD addon is running."),
         s').
Proof. eexists. reflexivity. Qed.

(** [get_parts_list] wraps nothing in a [try]: with the session at hand, a
    failure of its remote call leaves the handler as well. *)
Lemma get_parts_list_raises_on_transport_failure :
  let remote := scripted_remote probe_supported (Return png) timed_out in
  exists s',
    handle example_runtime remote GetPartsList (connected_state false)
      = (Raise (mkExc TransportError "timed out"), s').
Proof. eexists. reflexivity. Qed.

(** Nor does [get_view]: with the session at hand and a screenshot answer
    that is not a string, the validation error of the image item leaves the
    handler. *)
Lemma get_view_raises_on_invalid_screenshot :
  let remote := scripted_remote probe_supported (Return (PInt 123)) done_result in
  exists s',
    handle example_runtime remote (GetView Isometric) (connected_state false)
      = (Raise (mkExc ValidationError
                  (interp_text example_runtime ValidationError (PInt 123))), s').
Proof. eexists. reflexivity. Qed.

(** *** The note in place of a missing screenshot *)

Section Note.

Variable rt : Runtime.
Variable remote : Remote.

Lemma run_feedback_tool_absent t s c req res txt :
  only_text_feedback s = false ->
  freecad_connection s = Some c ->
  prepare t = Return req ->
  remote (wire s) req = Return res ->
  fst (get_active_screenshot rt remote c "Isometric" (set_wire (wire s ++ [req]) s))
    = Return PNone ->
  primary_text rt t res = Return txt ->
  exists s',
    run_feedback_tool rt remote t s
      = (Return [TextContent txt; TextContent unavailable_note], s').
Proof.
  intros Hmode Hslot Hreq Hres Hguard Htxt.
  unfold run_feedback_tool, bind, try_except.
  rewrite (get_connection_existing remote s c Hslot).
  unfold feedback_body, bind, subscript, call_server. unfold lift.
  rewrite Hreq, Hres.
  destruct (guard_total rt remote c "Isometric" (set_wire (wire s ++ [req]) s))
    as (shot & s2 & Hrun & Hflag & _).
  rewrite Hrun in Hguard. simpl in Hguard. injection Hguard as ->. rewrite Hrun.
  simpl in Hflag. rewrite Hmode in Hflag.
  unfold primary_text, outcome_bind in Htxt.
  destruct (py_getitem rt res "success") as [ok|e]; [|done].
  destruct (truthy ok).
  - rewrite Htxt. destruct (respond_eval rt txt PNone s2) as (s3 & -> & _).
    rewrite Hflag. simpl. eauto.
  - destruct (py_getitem rt res "error") as [err|e]; [|done].
    injection Htxt as <-.
    destruct (respond_eval rt (failure_prefix t +:+ py_str rt err) PNone s2) as (s3 & -> & _).
    rewrite Hflag. simpl. eauto.
Qed.

Lemma run_query_tool_absent q s c s1 answer :
  only_text_feedback s = false ->
  freecad_connection s = Some c ->
  get_active_screenshot rt remote c "Isometric" s = (Return PNone, s1) ->
  remote (wire s1) (query q) = Return answer ->
  exists s',
    run_query_tool rt remote q s
      = (Return [TextContent (json_dumps rt answer); TextContent unavailable_note], s').
Proof.
  intros Hmode Hslot Hguard Hanswer.
  unfold run_query_tool, bind, try_except.
  rewrite (get_connection_existing remote s c Hslot).
  unfold query_body, bind, call_server. rewrite Hguard, Hanswer.
  destruct (guard_total rt remote c "Isometric" s) as (shot & s2 & Hrun & Hflag & _).
  rewrite Hguard in Hrun. injection Hrun as <- <-.
  destruct (respond_eval rt (json_dumps rt answer) PNone (set_wire (wire s1 ++ [query q]) s1))
    as (s3 & -> & _).
  simpl. rewrite Hflag, Hmode. simpl. eauto.
Qed.

(** C5, amended.  With text-only mode off and no screenshot, the builder
    ends the list with the note; so does every handler that passes its
    answer through the builder, provided its remote calls returned and the
    result could be read: the envelope is then the primary text item
    followed by the note.  In particular [create_object], told
    [{success: false, error: "DuplicateName"}], returns the failure text and
    the note. *)
Theorem note_closes_envelope_without_screenshot op s c :
  only_text_feedback s = false ->
  freecad_connection s = Some c ->
  (forall r items,
      store s !! r = Some items ->
      exists s',
        add_screenshot_if_available rt r PNone s = (Return r, s')
        /\ store s' !! r = Some (items ++ [TextContent unavailable_note]))
  /\ (forall t req res txt,
        feedback_tool_of rt op = Some t ->
        prepare t = Return req ->
        remote (wire s) req = Return res ->
        fst (get_active_screenshot rt remote c "Isometric" (set_wire (wire s ++ [req]) s))
          = Return PNone ->
        primary_text rt t res = Return txt ->
        exists s',
          handle rt remote op s
            = (Return [TextContent txt; TextContent unavailable_note], s'))
  /\ (forall q s1 answer,
        query_tool_of op = Some q ->
        get_active_screenshot rt remote c "Isometric" s = (Return PNone, s1) ->
        remote (wire s1) (query q) = Return answer ->
        exists s',
          handle rt remote op s
            = (Return [TextContent (json_dumps rt answer);
                       TextContent unavailable_note], s'))
  /\ (forall doc_name obj_type obj_name analysis_name obj_properties req d flag,
        req = ReqCreateObject doc_name
                [("Name", PStr obj_name); ("Type", PStr obj_type);
                 ("Properties", PDict (properties_or_empty obj_properties));
                 ("Analysis", optional_str analysis_name)] ->
        remote (wire s) req = Return (PDict d) ->
        dict_lookup "success" d = Some flag ->
        truthy flag = false ->
        dict_lookup "error" d = Some (PStr "DuplicateName") ->
        fst (get_active_screenshot rt remote c "Isometric" (set_wire (wire s ++ [req]) s))
          = Return PNone ->
        exists s',
          create_object rt remote doc_name obj_type obj_name analysis_name obj_properties s
            = (Return [TextContent "Failed to create object: DuplicateName";
                       TextContent unavailable_note], s')).
Proof.
  intros Hmode Hslot. split; [|split; [|split]].
  - intros r items Hr.
    pose proof (builder_eval rt r items PNone s Hr) as H.
    rewrite Hmode in H. simpl in H. destruct H as (s' & Hrun & Hstore & _).
    exists s'. by split.
  - intros t req res txt Ht Hreq Hres Hguard Htxt.
    rewrite (feedback_tool_sound rt remote op t Ht). by eapply run_feedback_tool_absent.
  - intros q s1 answer Hq Hguard Hanswer.
    rewrite (query_tool_sound rt remote op q Hq). by eapply run_query_tool_absent.
  - intros doc_name obj_type obj_name analysis_name obj_properties req d flag
      -> Hres Hflag Hfalsy Herror Hguard.
    change (create_object rt remote doc_name obj_type obj_name analysis_name obj_properties s)
      with (handle rt remote
              (CreateObject doc_name obj_type obj_name analysis_name obj_properties) s).
    erewrite feedback_tool_sound by reflexivity.
    eapply run_feedback_tool_absent; try done.
    unfold primary_text, outcome_bind. simpl. rewrite Hflag, Hfalsy, Herror. done.
Qed.

(** C9: [create_document] told [{success: true, document_name: n}] returns
    the single text item naming [n]; after the session was obtained, the
    request for the document is the only thing sent, so no screenshot is
    attempted. *)
Theorem create_document_success name s c s1 d flag reported :
  get_freecad_connection remote s = (Return c, s1) ->
  remote (wire s1) (ReqCreateDocument name) = Return (PDict d) ->
  dict_lookup "success" d = Some flag ->
  truthy flag = true ->
  dict_lookup "document_name" d = Some (PStr reported) ->
  exists s',
    create_document rt remote name s
      = (Return [TextContent ("Document '" +:+ reported +:+ "' created successfully")], s')
    /\ wire s' = wire s1 ++ [ReqCreateDocument name]
    /\ count_screenshot_requests (wire s') = count_screenshot_requests (wire s1)
    /\ store s' = store s1.
Proof.
  intros Hget Hres Hflag Htruthy Hname.
  unfold create_document, bind, try_except, conn_create_document, call_server,
    subscript, logger, ret.
  unfold lift. rewrite Hget, Hres. simpl. rewrite Hflag, Htruthy. simpl. rewrite Hname.
  eexists. split; [reflexivity|]. simpl. split; [done|]. split; [|done].
  unfold count_screenshot_requests. rewrite List.filter_app, length_app. simpl. lia.
Qed.

End Note.

Lemma note_closes_envelope_without_screenshot_example :
  let remote := scripted_remote probe_no_active_view (Return PNone) duplicate_name_result in
  let s := connected_state false in
  only_text_feedback s = false
  /\ freecad_connection s = Some (mkConnection 0 "http://localhost:9875")
  /\ exists s',
       create_object example_runtime remote "Doc" "Part::Box" "Box" None None s
         = (Return [TextContent "Failed to create object: DuplicateName";
                    TextContent unavailable_note], s').
Proof.
  split; [reflexivity|]. split; [reflexivity|].
  destruct (note_closes_envelope_without_screenshot example_runtime
              (scripted_remote probe_no_active_view (Return PNone) duplicate_name_result)
              (CreateObject "Doc" "Part::Box" "Box" None None) (connected_state false)
              (mkConnection 0 "http://localhost:9875") eq_refl eq_refl)
    as (_ & _ & _ & Hscenario).
  eapply (Hscenario "Doc" "Part::Box" "Box" None None _
            [("success", PBool false); ("error", PStr "DuplicateName")] (PBool false));
    reflexivity.
Defined.

(** C5 as stated fails when a remote call raises after the guard found no
    screenshot: [get_objects] then returns the failure text alone. *)
Lemma get_objects_failure_has_no_note :
  let remote := scripted_remote probe_unsupported (Return PNone) timed_out in
  let s := connected_state false in
  let c := mkConnection 0 "http://localhost:9875" in
  only_text_feedback s = false
  /\ fst (get_active_screenshot example_runtime remote c "Isometric" s) = Return PNone
  /\ builds_envelope (GetObjects "Doc") = true
  /\ exists s',
       handle example_runtime remote (GetObjects "Doc") s
         = (Return [TextContent "Failed to get objects: timed out"], s')
       /\ last [TextContent "Failed to get objects: timed out"]
            <> Some (TextContent unavailable_note).
Proof.
  split; [reflexivity|]. split; [reflexivity|]. split; [reflexivity|].
  eexists. split; [reflexivity|]. discriminate.
Qed.

Lemma create_document_success_example :
  let remote := scripted_remote probe_supported (Return png) foo_created_result in
  exists s',
    create_document example_runtime remote "Foo" (initial_state false)
      = (Return [TextContent "Document 'Foo' created successfully"], s')
    /\ wire s' = [ReqPing; ReqCreateDocument "Foo"]
    /\ count_screenshot_requests (wire s') = 0
    /\ store s' = ∅.
Proof.
  apply (create_document_success example_runtime
           (scripted_remote probe_supported (Return png) foo_created_result)
           "Foo" (initial_state false) (mkConnection 0 "http://localhost:9875")
           (connected_state false)
           [("success", PBool true); ("document_name", PStr "Foo")] (PBool true) "Foo");
    reflexivity.
Defined.

(** * Further properties *)

(** ** The guard, request by request *)

Section GuardRequests.

Variable rt : Runtime.
Variable remote : Remote.

Lemma guard_wire self view s :
  exists l,
    wire (snd (get_active_screenshot rt remote self view s)) = wire s ++ l
    /\ guard_requests view l.
Proof.
  unfold get_active_screenshot, try_except, bind, call_server, dict_get, py_in, logger, ret,
    guard_requests.
  unfold lift. simpl.
  destruct (remote (wire s) (ReqExecuteCode ViewProbe)) as [result|e]; simpl; [|eauto].
  destruct (py_get rt result "success" (PBool false)) as [ok|e]; simpl; [|eauto].
  destruct (truthy ok); simpl; [|eauto].
  destruct (py_get rt result "message" (PStr "")) as [msg|e]; simpl; [|eauto].
  destruct (py_contains rt unsupported_view_marker msg) as [[|]|e]; simpl; [eauto| |eauto].
  destruct (remote (wire s ++ _) _); simpl; rewrite <- app_assoc; eauto.
Qed.

(** X1: the guard returns for every remote, connection object and view
    name, and changes neither the module globals nor any list object. *)
Theorem guard_returns_and_keeps_state self view s :
  exists shot s',
    get_active_screenshot rt remote self view s = (Return shot, s')
    /\ only_text_feedback s' = only_text_feedback s
    /\ freecad_connection s' = freecad_connection s
    /\ store s' = store s
    /\ next_id s' = next_id s.
Proof. apply guard_total. Qed.

(** X2: the guard sends the probe, then at most one screenshot request, for
    the view it was asked for, and nothing else. *)
Theorem guard_request_discipline self view s :
  let s' := snd (get_active_screenshot rt remote self view s) in
  (wire s' = wire s ++ [ReqExecuteCode ViewProbe]
   \/ wire s' = wire s ++ [ReqExecuteCode ViewProbe; ReqGetActiveScreenshot view]).
Proof.
  simpl. destruct (guard_wire self view s) as (l & -> & [-> | ->]); auto.
Qed.

Lemma guard_provenance self view s shot s' :
  get_active_screenshot rt remote self view s = (Return shot, s') ->
  shot <> PNone ->
  remote (wire s ++ [ReqExecuteCode ViewProbe]) (ReqGetActiveScreenshot view) = Return shot
  /\ wire s' = wire s ++ [ReqExecuteCode ViewProbe; ReqGetActiveScreenshot view]
  /\ log s' = log s.
Proof.
  unfold get_active_screenshot, try_except, bind, call_server, dict_get, py_in, logger, ret.
  unfold lift. simpl.
  destruct (remote (wire s) (ReqExecuteCode ViewProbe)) as [result|e]; simpl;
    [|by intros [= <- <-]].
  destruct (py_get rt result "success" (PBool false)) as [ok|e]; simpl;
    [|by intros [= <- <-]].
  destruct (truthy ok); simpl; [|by intros [= <- <-]].
  destruct (py_get rt result "message" (PStr "")) as [msg|e]; simpl;
    [|by intros [= <- <-]].
  destruct (py_contains rt unsupported_view_marker msg) as [[|]|e]; simpl;
    try by intros [= <- <-].
  destruct (remote (wire s ++ _) _) as [v|e]; simpl; [|by intros [= <- <-]].
  intros [= <- <-] _. simpl. by rewrite <- app_assoc.
Qed.

(** X3: a screenshot the guard hands out is what the remote answered to the
    screenshot request; the guard makes none up and logs nothing then. *)
Theorem guard_screenshot_provenance self view s shot s' :
  get_active_screenshot rt remote self view s = (Return shot, s') ->
  shot <> PNone ->
  remote (wire s ++ [ReqExecuteCode ViewProbe]) (ReqGetActiveScreenshot view) = Return shot
  /\ wire s' = wire s ++ [ReqExecuteCode ViewProbe; ReqGetActiveScreenshot view]
  /\ log s' = log s.
Proof. apply guard_provenance. Qed.

(** X4: when the probe's result has a falsy success flag, or none at all, or
    a message that contains the marker, the guard returns [None] after the
    probe alone and records the fact at INFO level. *)
Theorem guard_suppresses_unsupported_view self view s d :
  remote (wire s) (ReqExecuteCode ViewProbe) = Return (PDict d) ->
  truthy (default (PBool false) (dict_lookup "success" d)) = false
  \/ (exists message,
        dict_lookup "message" d = Some (PStr message)
        /\ str_contains unsupported_view_marker message = true) ->
  exists s',
    get_active_screenshot rt remote self view s = (Return PNone, s')
    /\ wire s' = wire s ++ [ReqExecuteCode ViewProbe]
    /\ log s' = log s ++ [(INFO, "Screenshot unavailable in current view (likely Spreadsheet or TechDraw view)")].
Proof.
  intros Hprobe Hcases.
  unfold get_active_screenshot, try_except, bind, call_server, dict_get, py_in, logger, ret.
  unfold lift. rewrite Hprobe. simpl.
  destruct (truthy (default (PBool false) (dict_lookup "success" d))) eqn:Hok; simpl;
    [|eauto].
  destruct Hcases as [Hfalse | (message & Hmsg & Hmark)]; [done|].
  rewrite Hmsg. simpl. rewrite Hmark. simpl. eauto.
Qed.

(** X5: a probe that fails in transport is absorbed: [None] comes back, no
    screenshot is requested, and the exception is logged at ERROR level. *)
Theorem guard_absorbs_probe_failure self view s e :
  remote (wire s) (ReqExecuteCode ViewProbe) = Raise e ->
  exists s',
    get_active_screenshot rt remote self view s = (Return PNone, s')
    /\ wire s' = wire s ++ [ReqExecuteCode ViewProbe]
    /\ log s' = log s ++ [(ERROR, "Error getting screenshot: " +:+ exc_str e)].
Proof.
  intros Hprobe.
  unfold get_active_screenshot, try_except, bind, call_server, logger, ret.
  rewrite Hprobe. simpl. eauto.
Qed.

(** X6: a screenshot request that fails after a good probe is absorbed as
    well: [None] comes back and the exception is logged at ERROR level. *)
Theorem guard_absorbs_screenshot_failure self view s d flag message e :
  remote (wire s) (ReqExecuteCode ViewProbe) = Return (PDict d) ->
  dict_lookup "success" d = Some flag ->
  truthy flag = true ->
  dict_lookup "message" d = Some (PStr message) ->
  str_contains unsupported_view_marker message = false ->
  remote (wire s ++ [ReqExecuteCode ViewProbe]) (ReqGetActiveScreenshot view) = Raise e ->
  exists s',
    get_active_screenshot rt remote self view s = (Return PNone, s')
    /\ wire s' = wire s ++ [ReqExecuteCode ViewProbe; ReqGetActiveScreenshot view]
    /\ log s' = log s ++ [(ERROR, "Error getting screenshot: " +:+ exc_str e)].
Proof.
  intros Hprobe Hflag Htruthy Hmsg Hmark Hshot.
  unfold get_active_screenshot, try_except, bind, call_server, dict_get, py_in, logger, ret.
  unfold lift. rewrite Hprobe. simpl. rewrite Hflag. simpl. rewrite Htruthy. simpl.
  rewrite Hmsg. simpl. rewrite Hmark. simpl. rewrite Hshot. simpl.
  eexists. split; [reflexivity|]. simpl. by rewrite <- app_assoc.
Qed.

(** X7: a probe result that is not a dict has no [get]; the
    [AttributeError] is absorbed like any other exception and no screenshot
    is requested. *)
Theorem guard_rejects_malformed_probe self view s result :
  remote (wire s) (ReqExecuteCode ViewProbe) = Return result ->
  (forall d, result <> PDict d) ->
  exists s',
    get_active_screenshot rt remote self view s = (Return PNone, s')
    /\ wire s' = wire s ++ [ReqExecuteCode ViewProbe]
    /\ log s' = log s ++ [(ERROR, "Error getting screenshot: "
                                    +:+ interp_text rt AttributeError result)].
Proof.
  intros Hprobe Hshape.
  unfold get_active_screenshot, try_except, bind, call_server, dict_get, logger, ret.
  unfold lift. rewrite Hprobe. simpl.
  destruct result; simpl; eauto. by destruct (Hshape d).
Qed.

End GuardRequests.

Lemma guard_screenshot_provenance_example :
  let remote := scripted_remote probe_supported (Return png) done_result in
  let self := mkConnection 0 "http://localhost:9875" in
  let s := connected_state false in
  (exists s', get_active_screenshot example_runtime remote self "Top" s = (Return png, s'))
  /\ png <> PNone
  /\ remote (wire s ++ [ReqExecuteCode ViewProbe]) (ReqGetActiveScreenshot "Top") = Return png.
Proof.
  split; [eexists; reflexivity|]. split; [discriminate|].
  eapply (guard_screenshot_provenance example_runtime
            (scripted_remote probe_supported (Return png) done_result)
            (mkConnection 0 "http://localhost:9875") "Top" (connected_state false) png).
  - reflexivity.
  - discriminate.
Defined.

Lemma guard_suppresses_unsupported_view_example :
  let remote := scripted_remote (Return (PDict [("message", PStr "ok")])) (Return png) done_result in
  let self := mkConnection 0 "http://localhost:9875" in
  let s := connected_state false in
  exists s',
    get_active_screenshot example_runtime remote self "Isometric" s = (Return PNone, s')
    /\ wire s' = wire s ++ [ReqExecuteCode ViewProbe]
    /\ log s' = log s ++ [(INFO, "Screenshot unavailable in current view (likely Spreadsheet or TechDraw view)")].
Proof.
  apply (guard_suppresses_unsupported_view example_runtime
           (scripted_remote (Return (PDict [("message", PStr "ok")])) (Return png) done_result)
           (mkConnection 0 "http://localhost:9875") "Isometric" (connected_state false)
           [("message", PStr "ok")]).
  - reflexivity.
  - left. reflexivity.
Defined.

Lemma guard_absorbs_probe_failure_example :
  let remote := scripted_remote timed_out (Return png) done_result in
  let self := mkConnection 0 "http://localhost:9875" in
  let s := connected_state false in
  exists s',
    get_active_screenshot example_runtime remote self "Isometric" s = (Return PNone, s')
    /\ wire s' = wire s ++ [ReqExecuteCode ViewProbe]
    /\ log s' = log s ++ [(ERROR, "Error getting screenshot: timed out")].
Proof.
  apply (guard_absorbs_probe_failure example_runtime
           (scripted_remote timed_out (Return png) done_result)
           (mkConnection 0 "http://localhost:9875") "Isometric" (connected_state false)
           (mkExc TransportError "timed out")).
  reflexivity.
Defined.

Lemma guard_absorbs_screenshot_failure_example :
  let remote := scripted_remote probe_supported timed_out done_result in
  let self := mkConnection 0 "http://localhost:9875" in
  let s := connected_state false in
  exists s',
    get_active_screenshot example_runtime remote self "Isometric" s = (Return PNone, s')
    /\ wire s' = wire s ++ [ReqExecuteCode ViewProbe; ReqGetActiveScreenshot "Isometric"]
    /\ log s' = log s ++ [(ERROR, "Error getting screenshot: timed out")].
Proof.
  apply (guard_absorbs_screenshot_failure example_runtime
           (scripted_remote probe_supported timed_out done_result)
           (mkConnection 0 "http://localhost:9875") "Isometric" (connected_state false)
           [("success", PBool true);
            ("message", PStr "Current view supports screenshots: View3DInventor")]
           (PBool true) "Current view supports screenshots: View3DInventor"
           (mkExc TransportError "timed out")); reflexivity.
Defined.

Lemma guard_rejects_malformed_probe_example :
  let remote := scripted_remote (Return PNone) (Return png) done_result in
  let self := mkConnection 0 "http://localhost:9875" in
  let s := connected_state false in
  exists s',
    get_active_screenshot example_runtime remote self "Isometric" s = (Return PNone, s')
    /\ wire s' = wire s ++ [ReqExecuteCode ViewProbe]
    /\ log s' = log s ++ [(ERROR, "Error getting screenshot: unsupported operation")].
Proof.
  apply (guard_rejects_malformed_probe example_runtime
           (scripted_remote (Return PNone) (Return png) done_result)
           (mkConnection 0 "http://localhost:9875") "Isometric" (connected_state false) PNone).
  - reflexivity.
  - intros d. discriminate.
Defined.

(** ** The connection slot, start and stop *)

Section SlotAndLifespan.

Variable rt : Runtime.
Variable remote : Remote.

Lemma get_connection_wire s :
  let s' := snd (get_freecad_connection remote s) in
  log s' = log s /\ wire s' = wire s /\ freecad_connection s' = freecad_connection s
  \/ freecad_connection s = None /\ wire s' = wire s ++ [ReqPing].
Proof.
  unfold get_freecad_connection, bind, read_connection, new_FreeCADConnection,
    write_connection, ping, call_server, logger, raise, ret. simpl.
  destruct (freecad_connection s) eqn:Hslot; simpl; [by left|]. right.
  destruct (remote (wire s) ReqPing) as [alive|e]; simpl; [|done].
  destruct (truthy alive); done.
Qed.

(** X8: a ping answered with a falsy value makes the call raise the fixed
    connection error, leaves the slot empty and logs the failure; the next
    call therefore builds a connection and pings again. *)
Theorem falsy_ping_empties_slot s alive :
  freecad_connection s = None ->
  remote (wire s) ReqPing = Return alive ->
  truthy alive = false ->
  exists s',
    get_freecad_connection remote s
      = (Raise (mkExc Exception
                  "Failed to connect to FreeCAD. Make sure the FreeCAD addon is running."),
         s')
    /\ freecad_connection s' = None
    /\ wire s' = wire s ++ [ReqPing]
    /\ log s' = log s ++ [(ERROR, "Failed to ping FreeCAD")]
    /\ wire (snd (get_freecad_connection remote s')) = wire s' ++ [ReqPing].
Proof.
  intros Hslot Hping Hfalsy.
  unfold get_freecad_connection, bind, read_connection, new_FreeCADConnection,
    write_connection, ping, call_server, logger, raise, ret. simpl.
  rewrite Hslot, Hping. simpl. rewrite Hfalsy. simpl.
  eexists. split; [reflexivity|]. simpl. do 3 (split; [done|]).
  destruct (remote (wire s ++ [ReqPing]) ReqPing) as [v|e]; simpl; [|done].
  destruct (truthy v); done.
Qed.

(** X9: [get_freecad_connection] raises only on a call that found the slot
    empty and pinged: either the ping itself raised that exception, or it
    was answered with a falsy value and the fixed connection error is
    raised.  A filled slot never makes it raise. *)
Theorem connection_failure_cases s e s' :
  get_freecad_connection remote s = (Raise e, s') ->
  freecad_connection s = None
  /\ wire s' = wire s ++ [ReqPing]
  /\ (remote (wire s) ReqPing = Raise e
      \/ exists alive,
           remote (wire s) ReqPing = Return alive
           /\ truthy alive = false
           /\ e = mkExc Exception
                    "Failed to connect to FreeCAD. Make sure the FreeCAD addon is running.").
Proof.
  unfold get_freecad_connection, bind, read_connection, new_FreeCADConnection,
    write_connection, ping, call_server, logger, raise, ret. simpl.
  destruct (freecad_connection s) eqn:Hslot; simpl; [done|].
  destruct (remote (wire s) ReqPing) as [alive|e0] eqn:Hping; simpl.
  - destruct (truthy alive) eqn:Halive; simpl; [done|].
    intros [= <- <-]. simpl. eauto 10.
  - intros [= <- <-]. simpl. eauto.
Qed.

(** X10: a first call whose ping is answered with a truthy value returns a
    new connection to [http://localhost:9875], stores that object in the
    slot, and has sent the one ping and nothing else. *)
Theorem first_connection s alive :
  freecad_connection s = None ->
  remote (wire s) ReqPing = Return alive ->
  truthy alive = true ->
  exists c s',
    get_freecad_connection remote s = (Return c, s')
    /\ conn_url c = "http://localhost:9875"
    /\ freecad_connection s' = Some c
    /\ wire s' = wire s ++ [ReqPing]
    /\ log s' = log s
    /\ store s' = store s
    /\ only_text_feedback s' = only_text_feedback s.
Proof.
  intros Hslot Hping Halive.
  unfold get_freecad_connection, bind, read_connection, new_FreeCADConnection,
    write_connection, ping, call_server, logger, raise, ret. simpl.
  rewrite Hslot, Hping. simpl. rewrite Halive. simpl.
  do 2 eexists. split; [reflexivity|]. done.
Qed.

Lemma lifespan_startup_run s :
  exists s',
    lifespan_startup remote s = (Return tt, s')
    /\ only_text_feedback s' = only_text_feedback s
    /\ store s' = store s
    /\ (wire s' = wire s \/ wire s' = wire s ++ [ReqPing]).
Proof.
  unfold lifespan_startup, bind, try_except, logger, ret. simpl.
  set (s0 := set_log _ s).
  pose proof (get_connection_wire s0) as Hwire.
  destruct (get_freecad_connection remote s0) as [[c|e] s1] eqn:Hget;
    apply get_connection_frame in Hget as [Hmode Hstore]; simpl in *;
    (eexists; split; [reflexivity|]); simpl;
    (split; [done|]); (split; [done|]);
    destruct Hwire as [(_ & -> & _)|[_ ->]]; auto.
Qed.

(** X11: the start-up hook never raises, whatever the remote does.  After
    its opening record it logs either the success of the connection, at
    INFO level, or two warnings, the first carrying the text of the
    exception that [get_freecad_connection] raised; a falsy ping has left
    its own ERROR record before them.  The hook sends at most one ping and
    leaves the feedback mode and the list objects alone. *)
Theorem lifespan_startup_never_raises s :
  let opening := (INFO, "FreeCADMCP server starting up") in
  exists s',
    lifespan_startup remote s = (Return tt, s')
    /\ only_text_feedback s' = only_text_feedback s
    /\ store s' = store s
    /\ (wire s' = wire s \/ wire s' = wire s ++ [ReqPing])
    /\ ((exists c,
           freecad_connection s' = Some c
           /\ log s' = log s ++ [opening;
                                 (INFO, "Successfully connected to FreeCAD on startup")])
        \/ (exists e before,
              fst (get_freecad_connection remote (set_log (log s ++ [opening]) s)) = Raise e
              /\ (before = [] \/ before = [(ERROR, "Failed to ping FreeCAD")])
              /\ log s' = log s ++ [opening] ++ before ++
                   [(WARNING, "Could not connect to FreeCAD on startup: " +:+ exc_str e);
                    (WARNING, "Make sure the FreeCAD addon is running before using FreeCAD resources or tools")])).
Proof.
  unfold lifespan_startup, get_freecad_connection, bind, try_except, read_connection,
    new_FreeCADConnection, write_connection, ping, call_server, logger, raise, ret.
  simpl.
  destruct (freecad_connection s) as [c|] eqn:Hslot; simpl.
  - eexists. split; [reflexivity|]. simpl. repeat split; auto.
    left. exists c. split; [done|]. by rewrite <- app_assoc.
  - destruct (remote (wire s) ReqPing) as [alive|e]; simpl.
    + destruct (truthy alive); simpl.
      * eexists. split; [reflexivity|]. simpl. repeat split; auto.
        left. eexists. split; [done|]. by rewrite <- app_assoc.
      * eexists. split; [reflexivity|]. simpl. repeat split; auto.
        right. eexists _, [(ERROR, "Failed to ping FreeCAD")].
        split; [reflexivity|]. split; [by right|].
        by rewrite <- !app_assoc.
    + eexists. split; [reflexivity|]. simpl. repeat split; auto.
      right. exists e, []. split; [reflexivity|]. split; [by left|].
      by rewrite <- !app_assoc.
Qed.

(** X12: the shutdown hook.  With an empty slot it logs and returns.  With a
    handle in the slot it calls [disconnect], which [FreeCADConnection] does
    not have: the [AttributeError] leaves the hook, the slot is not cleared
    and the closing log record is not written. *)
Theorem lifespan_shutdown_outcome s :
  match freecad_connection s with
  | None =>
      lifespan_shutdown s
        = (Return tt, set_log (log s ++ [(INFO, "FreeCADMCP server shut down")]) s)
  | Some c =>
      exists e s',
        lifespan_shutdown s = (Raise e, s')
        /\ exc_type e = AttributeError
        /\ freecad_connection s' = Some c
        /\ log s' = log s ++ [(INFO, "Disconnecting from FreeCAD on shutdown")]
        /\ wire s' = wire s
  end.
Proof.
  unfold lifespan_shutdown, bind, read_connection, conn_disconnect, logger, raise, ret.
  destruct (freecad_connection s) eqn:Hslot; simpl.
  - do 2 eexists. split; [reflexivity|]. done.
  - reflexivity.
Qed.

(** X13: the mode chosen on the command line is the mode every handler
    sees: neither the start-up hook nor any sequence of handler calls,
    returning or raising, changes [_only_text_feedback]. *)
Theorem mode_is_fixed_by_main flag ops s :
  let started := snd (lifespan_startup remote (snd (main flag s))) in
  only_text_feedback started = flag
  /\ only_text_feedback (serve rt remote ops started) = flag
  /\ forall op, only_text_feedback (snd (handle rt remote op (serve rt remote ops started))) = flag.
Proof.
  cbv zeta.
  destruct (lifespan_startup_run (snd (main flag s))) as (s1 & Hrun & Hmode & _).
  rewrite Hrun. simpl. simpl in Hmode.
  split; [done|]. split.
  - by rewrite (serve_keeps_mode rt remote).
  - intros op. by rewrite (handle_keeps_mode rt remote), (serve_keeps_mode rt remote).
Qed.

(** X14: no handler, whether it returns or raises and whatever the remote
    does, empties a filled slot or puts another connection into it: there
    is no reconnection. *)
Theorem handlers_never_reconnect op s c :
  freecad_connection s = Some c ->
  freecad_connection (snd (handle rt remote op s)) = Some c.
Proof. apply handle_keeps_slot. Qed.

End SlotAndLifespan.

Lemma falsy_ping_empties_slot_example :
  let s := initial_state false in
  exists s',
    get_freecad_connection remote_not_alive s
      = (Raise (mkExc Exception
                  "Failed to connect to FreeCAD. Make sure the FreeCAD addon is running."),
         s')
    /\ freecad_connection s' = None
    /\ wire s' = wire s ++ [ReqPing]
    /\ log s' = log s ++ [(ERROR, "Failed to ping FreeCAD")]
    /\ wire (snd (get_freecad_connection remote_not_alive s')) = wire s' ++ [ReqPing].
Proof.
  apply (falsy_ping_empties_slot remote_not_alive (initial_state false) (PBool false));
    reflexivity.
Defined.

Lemma connection_failure_cases_example :
  let s := initial_state false in
  let e := mkExc TransportError "[Errno 111] Connection refused" in
  (exists s', get_freecad_connection remote_unreachable s = (Raise e, s'))
  /\ freecad_connection s = None
  /\ remote_unreachable (wire s) ReqPing = Raise e.
Proof.
  split; [eexists; reflexivity|].
  destruct (connection_failure_cases remote_unreachable (initial_state false)
              (mkExc TransportError "[Errno 111] Connection refused") _ eq_refl)
    as (Hslot & _ & _).
  split; [exact Hslot|reflexivity].
Defined.

Lemma first_connection_example :
  let remote := scripted_remote probe_supported (Return png) done_result in
  exists c s',
    get_freecad_connection remote (initial_state true) = (Return c, s')
    /\ conn_url c = "http://localhost:9875"
    /\ freecad_connection s' = Some c
    /\ wire s' = [ReqPing].
Proof.
  destruct (first_connection (scripted_remote probe_supported (Return png) done_result)
              (initial_state true) (PBool true) eq_refl eq_refl eq_refl)
    as (c & s' & Hrun & Hurl & Hslot & Hwire & _).
  exists c, s'. repeat split; assumption.
Defined.

Lemma handlers_never_reconnect_example :
  let c := mkConnection 0 "http://localhost:9875" in
  freecad_connection (connected_state false) = Some c
  /\ freecad_connection
       (snd (handle example_runtime remote_unreachable GetPartsList (connected_state false)))
     = Some c.
Proof.
  split; [reflexivity|].
  apply (handlers_never_reconnect example_runtime remote_unreachable GetPartsList
           (connected_state false) (mkConnection 0 "http://localhost:9875")).
  reflexivity.
Defined.

(** ** How many requests a handler sends *)

Section Requests.

Variable rt : Runtime.
Variable remote : Remote.

Lemma quiet_silent {A} (m : M A) :
  (forall s, wire (snd (m s)) = wire s) -> quiet 0 0 m.
Proof. intros H s. exists []. rewrite H, app_nil_r. done. Qed.

Lemma quiet_ret {A} (a : A) : quiet 0 0 (ret a).
Proof. by apply quiet_silent. Qed.

Lemma quiet_lift {A} (o : Outcome A) : quiet 0 0 (lift o).
Proof. by apply quiet_silent. Qed.

Lemma quiet_logger lvl msg : quiet 0 0 (logger lvl msg).
Proof. by apply quiet_silent. Qed.

Lemma quiet_new_list items : quiet 0 0 (new_list items).
Proof. by apply quiet_silent. Qed.

Lemma quiet_list_items r : quiet 0 0 (list_items r).
Proof. by apply quiet_silent. Qed.

Lemma quiet_builder r shot : quiet 0 0 (add_screenshot_if_available rt r shot).
Proof.
  apply quiet_silent. intros s.
  unfold add_screenshot_if_available, bind, read_only_text_feedback, list_append, ret, lift.
  destruct (is_not_none shot && negb (only_text_feedback s)).
  - by destruct (new_ImageContent rt shot "image/png").
  - by destruct (negb (only_text_feedback s)).
Qed.

Lemma quiet_call self req :
  is_ping req = false -> is_screenshot_request req = false ->
  quiet 1 0 (call_server remote self req).
Proof.
  intros Hping Hshot s. exists [req]. unfold count_pings, count_screenshot_requests.
  simpl. rewrite Hping, Hshot. simpl. auto.
Qed.

Lemma quiet_guard self view : quiet 2 1 (get_active_screenshot rt remote self view).
Proof.
  intros s. destruct (guard_wire rt remote self view s) as (l & Hwire & [-> | ->]);
    eexists; (split; [exact Hwire|]); unfold count_pings, count_screenshot_requests;
    simpl; auto.
Qed.

Lemma quiet_bind {A B} n1 q1 n2 q2 (m : M A) (k : A -> M B) :
  quiet n1 q1 m -> (forall a, quiet n2 q2 (k a)) -> quiet (n1 + n2) (q1 + q2) (bind m k).
Proof.
  intros Hm Hk s. unfold bind. destruct (Hm s) as (l1 & Hw1 & Hn1 & Hp1 & Hq1).
  destruct (m s) as [[a|e] s1]; simpl in *.
  - destruct (Hk a s1) as (l2 & Hw2 & Hn2 & Hp2 & Hq2).
    exists (l1 ++ l2). rewrite Hw2, Hw1, <- app_assoc.
    unfold count_pings, count_screenshot_requests in *.
    rewrite !List.filter_app, !length_app. repeat split; try done; lia.
  - exists l1. repeat split; try done; lia.
Qed.

Lemma quiet_try_except {A} n1 q1 n2 q2 (body : M A) (handler : Exc -> M A) :
  quiet n1 q1 body -> (forall e, quiet n2 q2 (handler e)) ->
  quiet (n1 + n2) (q1 + q2) (try_except body handler).
Proof.
  intros Hb Hh s. unfold try_except. destruct (Hb s) as (l1 & Hw1 & Hn1 & Hp1 & Hq1).
  destruct (body s) as [[a|e] s1]; simpl in *.
  - exists l1. repeat split; try done; lia.
  - destruct (Hh e s1) as (l2 & Hw2 & Hn2 & Hp2 & Hq2).
    exists (l1 ++ l2). rewrite Hw2, Hw1, <- app_assoc.
    unfold count_pings, count_screenshot_requests in *.
    rewrite !List.filter_app, !length_app. repeat split; try done; lia.
Qed.

Lemma quiet_weaken {A} n q n' q' (m : M A) :
  quiet n q m -> n <= n' -> q <= q' -> quiet n' q' m.
Proof.
  intros Hm Hn Hq s. destruct (Hm s) as (l & Hw & Hl & Hp & Hs).
  exists l. repeat split; try done; lia.
Qed.

Lemma quiet_if {A} n1 q1 n2 q2 (b : bool) (m1 m2 : M A) :
  quiet n1 q1 m1 -> quiet n2 q2 m2 ->
  quiet (Nat.max n1 n2) (Nat.max q1 q2) (if b then m1 else m2).
Proof.
  intros H1 H2. destruct b; [eapply quiet_weaken; [exact H1|lia|lia]
                            |eapply quiet_weaken; [exact H2|lia|lia]].
Qed.

Ltac quiet :=
  repeat first
    [ apply quiet_ret | apply quiet_lift | apply quiet_logger | apply quiet_new_list
    | apply quiet_list_items | apply quiet_builder | apply quiet_guard
    | apply quiet_call; reflexivity
    | eapply quiet_bind; [|intros ?]
    | eapply quiet_try_except; [|intros ?]
    | eapply quiet_if
    | progress cbv zeta ].



End Requests.

(** ** What the handlers assemble *)

Section Assembly.

Variable rt : Runtime.
Variable remote : Remote.

(** X16: with text-only mode off and a screenshot string at hand, the
    builder appends exactly one image item holding that string with MIME
    type [image/png]; it sends nothing, logs nothing and leaves the globals
    alone. *)
Theorem builder_appends_image r items data s :
  store s !! r = Some items ->
  only_text_feedback s = false ->
  exists s',
    add_screenshot_if_available rt r (PStr data) s = (Return r, s')
    /\ store s' !! r = Some (items ++ [ImageContent (PStr data) "image/png"])
    /\ wire s' = wire s /\ log s' = log s
    /\ only_text_feedback s' = false
    /\ freecad_connection s' = freecad_connection s.
Proof.
  intros Hr Hmode.
  unfold add_screenshot_if_available, bind, read_only_text_feedback, list_append, ret, lift.
  rewrite Hmode. simpl.
  eexists; split; [reflexivity|]. simpl. rewrite lookup_alter_eq, Hr. done.
Qed.

(** X17: a handler of the feedback shape whose request is answered, with
    the guard giving a string or [None]: the request goes out first, then
    the guard's probe (and screenshot request); the envelope is the primary
    text followed by the attachment for the guard's screenshot.  The
    screenshot is taken and attached after a reported failure just as after
    a success; with text-only mode off and a screenshot present the
    envelope ends with the image item. *)
Theorem feedback_handler_assembly op t s c req res (shot : option string) s2 txt :
  freecad_connection s = Some c ->
  feedback_tool_of rt op = Some t ->
  prepare t = Return req ->
  remote (wire s) req = Return res ->
  get_active_screenshot rt remote c "Isometric" (set_wire (wire s ++ [req]) s)
    = (Return (optional_str shot), s2) ->
  primary_text rt t res = Return txt ->
  exists items s' l,
    handle rt remote op s = (Return items, s')
    /\ items = TextContent txt :: attachment (only_text_feedback s) shot
    /\ wire s' = wire s ++ req :: l
    /\ guard_requests "Isometric" l
    /\ (only_text_feedback s = false -> forall data, shot = Some data ->
        items = [TextContent txt; ImageContent (PStr data) "image/png"]).
Proof.
  intros Hslot Ht Hreq Hres Hguard Htxt.
  rewrite (feedback_tool_sound rt remote op t Ht).
  unfold run_feedback_tool, bind, try_except.
  rewrite (get_connection_existing remote s c Hslot).
  unfold feedback_body, bind, subscript, call_server. unfold lift.
  rewrite Hreq, Hres, Hguard.
  destruct (guard_total rt remote c "Isometric" (set_wire (wire s ++ [req]) s))
    as (shot' & s2' & Hrun & Hmode & _).
  rewrite Hguard in Hrun. injection Hrun as <- <-. simpl in Hmode.
  destruct (guard_wire rt remote c "Isometric" (set_wire (wire s ++ [req]) s))
    as (l & Hwire & Hl).
  rewrite Hguard in Hwire. simpl in Hwire. rewrite <- app_assoc in Hwire. simpl in Hwire.
  assert (Hend : forall text s3,
            wire s3 = wire s2 ->
            exists items s' l,
              (Return (TextContent text :: attachment (only_text_feedback s2) shot), s3)
                = (Return items, s')
              /\ items = TextContent text :: attachment (only_text_feedback s) shot
              /\ wire s' = wire s ++ req :: l
              /\ guard_requests "Isometric" l
              /\ (only_text_feedback s = false -> forall data, shot = Some data ->
                  items = [TextContent text; ImageContent (PStr data) "image/png"])).
  { intros text s3 Hw. rewrite Hmode.
    eexists _, s3, l. split; [reflexivity|]. split; [done|].
    split; [by rewrite Hw|]. split; [done|].
    by intros -> data ->. }
  unfold primary_text, outcome_bind in Htxt.
  destruct (py_getitem rt res "success") as [ok|e]; [|done].
  destruct (truthy ok).
  - rewrite Htxt. destruct (respond_eval rt txt (optional_str shot) s2) as (s3 & Hrun & _ & _ & Hw & _).
    rewrite Hrun, appended_optional. by apply Hend.
  - destruct (py_getitem rt res "error") as [err|e]; [|done]. injection Htxt as <-.
    destruct (respond_eval rt (failure_prefix t +:+ py_str rt err) (optional_str shot) s2)
      as (s3 & Hrun & _ & _ & Hw & _).
    rewrite Hrun, appended_optional. by apply Hend.
Qed.

(** X27: with text-only mode off, a screenshot that is neither [None] nor
    a string makes the builder raise the validation error of the image
    item; the list and the rest of the state are as they were. *)
Theorem builder_rejects_invalid_screenshot r shot s :
  only_text_feedback s = false ->
  shot <> PNone ->
  (forall data, shot <> PStr data) ->
  add_screenshot_if_available rt r shot s
    = (Raise (mkExc ValidationError (interp_text rt ValidationError shot)), s).
Proof.
  intros Hmode Hnone Hstr.
  unfold add_screenshot_if_available, bind, read_only_text_feedback, lift.
  rewrite Hmode. destruct shot; try done. by destruct (Hstr s0).
Qed.

(** X28: such a screenshot reaching a handler that builds an envelope is
    caught by the handler's [except]: after an answered request the
    envelope is the one failure text made of the handler's prefix and the
    text of the validation error, logged at ERROR level; the primary text
    is dropped. *)
Theorem invalid_screenshot_becomes_failure_text op s c shot :
  freecad_connection s = Some c ->
  only_text_feedback s = false ->
  shot <> PNone ->
  (forall data, shot <> PStr data) ->
  (forall t req res s2 txt,
      feedback_tool_of rt op = Some t ->
      prepare t = Return req ->
      remote (wire s) req = Return res ->
      get_active_screenshot rt remote c "Isometric" (set_wire (wire s ++ [req]) s)
        = (Return shot, s2) ->
      primary_text rt t res = Return txt ->
      let text := failure_prefix t +:+ interp_text rt ValidationError shot in
      exists s',
        handle rt remote op s = (Return [TextContent text], s')
        /\ log s' = log s2 ++ [(ERROR, text)])
  /\ (forall q s1 answer,
        query_tool_of op = Some q ->
        get_active_screenshot rt remote c "Isometric" s = (Return shot, s1) ->
        remote (wire s1) (query q) = Return answer ->
        let text := query_failure_prefix q +:+ interp_text rt ValidationError shot in
        exists s',
          handle rt remote op s = (Return [TextContent text], s')
          /\ log s' = log s1 ++ [(ERROR, text)]).
Proof.
  intros Hslot Hmode Hnone Hstr.
  assert (Happ : appended rt false shot
                 = Raise (mkExc ValidationError (interp_text rt ValidationError shot))).
  { destruct shot; try done. by destruct (Hstr s0). }
  split.
  - intros t req res s2 txt Ht Hreq Hres Hguard Htxt. cbv zeta.
    rewrite (feedback_tool_sound rt remote op t Ht).
    unfold run_feedback_tool, bind, try_except.
    rewrite (get_connection_existing remote s c Hslot).
    unfold feedback_body, bind, subscript, call_server. unfold lift.
    rewrite Hreq, Hres, Hguard.
    destruct (guard_total rt remote c "Isometric" (set_wire (wire s ++ [req]) s))
      as (shot' & s2' & Hrun & Hflag & _).
    rewrite Hguard in Hrun. injection Hrun as <- <-. simpl in Hflag.
    rewrite Hmode in Hflag.
    unfold primary_text, outcome_bind in Htxt.
    destruct (py_getitem rt res "success") as [ok|e]; [|done].
    destruct (truthy ok).
    + rewrite Htxt.
      destruct (respond_eval rt txt shot s2) as (s3 & -> & _ & _ & _ & Hlog).
      rewrite Hflag, Happ. simpl. rewrite failure_item_eval.
      eexists. split; [reflexivity|]. simpl. by rewrite Hlog.
    + destruct (py_getitem rt res "error") as [err|e]; [|done].
      destruct (respond_eval rt (failure_prefix t +:+ py_str rt err) shot s2)
        as (s3 & -> & _ & _ & _ & Hlog).
      rewrite Hflag, Happ. simpl. rewrite failure_item_eval.
      eexists. split; [reflexivity|]. simpl. by rewrite Hlog.
  - intros q s1 answer Hq Hguard Hanswer. cbv zeta.
    rewrite (query_tool_sound rt remote op q Hq).
    unfold run_query_tool, bind, try_except.
    rewrite (get_connection_existing remote s c Hslot).
    unfold query_body, bind, call_server. rewrite Hguard, Hanswer.
    destruct (guard_total rt remote c "Isometric" s) as (shot' & s1' & Hrun & Hflag & _).
    rewrite Hguard in Hrun. injection Hrun as <- <-.
    destruct (respond_eval rt (json_dumps rt answer) shot
                (set_wire (wire s1 ++ [query q]) s1)) as (s3 & -> & _ & _ & _ & Hlog).
    simpl. rewrite Hflag, Hmode, Happ. simpl. rewrite failure_item_eval.
    eexists. split; [reflexivity|]. simpl. by rewrite Hlog.
Qed.

End Assembly.

Lemma builder_appends_image_example :
  let s := set_store {[ 0 := [TextContent "done"] ]} (connected_state false) in
  exists s',
    add_screenshot_if_available example_runtime 0 png s = (Return 0, s')
    /\ store s' !! 0 = Some ([TextContent "done"] ++ [ImageContent png "image/png"])
    /\ wire s' = wire s /\ log s' = log s
    /\ only_text_feedback s' = false
    /\ freecad_connection s' = freecad_connection s.
Proof.
  apply (builder_appends_image example_runtime 0 [TextContent "done"] "iVBORw0KGgo=").
  - reflexivity.
  - reflexivity.
Defined.

Lemma feedback_handler_assembly_example :
  let remote := scripted_remote probe_supported (Return png) duplicate_name_result in
  exists s',
    handle example_runtime remote (EditObject "Doc" "Box" []) (connected_state false)
      = (Return [TextContent "Failed to edit object: DuplicateName";
                 ImageContent png "image/png"], s').
Proof.
  destruct (feedback_handler_assembly example_runtime
              (scripted_remote probe_supported (Return png) duplicate_name_result)
              (EditObject "Doc" "Box" []) _ (connected_state false)
              (mkConnection 0 "http://localhost:9875")
              (ReqEditObject "Doc" "Box" [("Properties", PDict [])])
              (PDict [("success", PBool false); ("error", PStr "DuplicateName")])
              (Some "iVBORw0KGgo=") _ "Failed to edit object: DuplicateName"
              eq_refl eq_refl eq_refl eq_refl eq_refl eq_refl)
    as (items & s' & l & Hrun & _ & _ & _ & Himage).
  exists s'. rewrite Hrun. f_equal. f_equal. by apply Himage.
Defined.

Lemma builder_rejects_invalid_screenshot_example :
  let s := set_store {[ 0 := [TextContent "done"] ]} (connected_state false) in
  add_screenshot_if_available example_runtime 0 (PInt 123) s
    = (Raise (mkExc ValidationError (interp_text example_runtime ValidationError (PInt 123))),
       s).
Proof.
  apply (builder_rejects_invalid_screenshot example_runtime 0 (PInt 123)).
  - reflexivity.
  - discriminate.
  - intros data. discriminate.
Defined.

Lemma invalid_screenshot_becomes_failure_text_example :
  let remote := scripted_remote probe_supported (Return (PInt 123)) done_result in
  exists s',
    handle example_runtime remote (ExecuteCode "print(1)") (connected_state false)
      = (Return [TextContent ("Failed to execute code: "
                              +:+ interp_text example_runtime ValidationError (PInt 123))],
         s').
Proof.
  destruct (invalid_screenshot_becomes_failure_text example_runtime
              (scripted_remote probe_supported (Return (PInt 123)) done_result)
              (ExecuteCode "print(1)") (connected_state false)
              (mkConnection 0 "http://localhost:9875") (PInt 123) eq_refl eq_refl)
    as [Hfeedback _]; [discriminate|intros data; discriminate|].
  destruct (Hfeedback _ (ReqExecuteCode (UserCode "print(1)"))
              (PDict [("success", PBool true); ("message", PStr "done")]) _
              "Code executed successfully: done"
              eq_refl eq_refl eq_refl eq_refl eq_refl) as (s' & Hrun & _).
  exists s'. exact Hrun.
Defined.

(** ** When the remote fails or answers badly *)

Section Failures.

Variable rt : Runtime.
Variable remote : Remote.


(** X19: a result without the key [success] makes the handler answer with
    the failure text of the [KeyError]; the screenshot the guard took in
    between is dropped, and neither image nor note is attached. *)
Theorem result_without_success_flag op t s c req d :
  freecad_connection s = Some c ->
  feedback_tool_of rt op = Some t ->
  prepare t = Return req ->
  remote (wire s) req = Return (PDict d) ->
  dict_lookup "success" d = None ->
  exists s' l,
    handle rt remote op s = (Return [TextContent (failure_prefix t +:+ "'success'")], s')
    /\ wire s' = wire s ++ req :: l
    /\ guard_requests "Isometric" l.
Proof.
  intros Hslot Ht Hreq Hres Hmissing.
  rewrite (feedback_tool_sound rt remote op t Ht).
  unfold run_feedback_tool, bind, try_except.
  rewrite (get_connection_existing remote s c Hslot).
  unfold feedback_body, bind, subscript, call_server. unfold lift.
  rewrite Hreq, Hres.
  destruct (guard_total rt remote c "Isometric" (set_wire (wire s ++ [req]) s))
    as (shot & s2 & Hrun & _).
  destruct (guard_wire rt remote c "Isometric" (set_wire (wire s ++ [req]) s))
    as (l & Hwire & Hl).
  rewrite Hrun in Hwire |- *. simpl in Hwire. rewrite <- app_assoc in Hwire.
  simpl. rewrite Hmissing. rewrite failure_item_eval.
  eexists _, l. split; [reflexivity|]. done.
Qed.


(** X21: a failure the remote reports to [create_document] is passed on as
    text, with the reported error rendered by [str]; unlike an exception it
    is not logged. *)
Theorem create_document_reported_failure name s c d flag error :
  freecad_connection s = Some c ->
  remote (wire s) (ReqCreateDocument name) = Return (PDict d) ->
  dict_lookup "success" d = Some flag ->
  truthy flag = false ->
  dict_lookup "error" d = Some error ->
  create_document rt remote name s
    = (Return [TextContent ("Failed to create document: " +:+ py_str rt error)],
       set_wire (wire s ++ [ReqCreateDocument name]) s).
Proof.
  intros Hslot Hres Hflag Hfalsy Herror.
  unfold create_document, bind, try_except, conn_create_document, call_server,
    subscript, logger, ret.
  unfold lift. rewrite (get_connection_existing remote s c Hslot), Hres. simpl.
  rewrite Hflag, Hfalsy. simpl. by rewrite Herror.
Qed.

(** X22: [get_parts_list] with a session sends its one request and no
    probe.  A falsy answer (an empty list, [None]) gives the fixed text that
    no parts were found, never the rendering of an empty list. *)
Theorem get_parts_list_answer s c parts :
  freecad_connection s = Some c ->
  remote (wire s) ReqGetPartsList = Return parts ->
  truthy parts = false ->
  get_parts_list rt remote s
    = (Return [TextContent
                 "No parts found in the parts library. You must add parts_library addon."],
       set_wire (wire s ++ [ReqGetPartsList]) s).
Proof.
  intros Hslot Hres Hfalsy.
  unfold get_parts_list, bind, conn_get_parts_list, call_server, ret.
  rewrite (get_connection_existing remote s c Hslot), Hres.
  by rewrite Hfalsy.
Qed.


(** X24: [get_objects] and [get_object] call the guard before their own
    request and send that request whatever the guard found.  They return a
    non-empty envelope whatever the remote does; when the request raises,
    the envelope is the failure text alone. *)
Theorem query_handler_assembly op q s c :
  freecad_connection s = Some c ->
  query_tool_of op = Some q ->
  exists items s' l,
    handle rt remote op s = (Return items, s')
    /\ items <> []
    /\ wire s' = wire s ++ l ++ [query q]
    /\ guard_requests "Isometric" l
    /\ (forall e, remote (wire s ++ l) (query q) = Raise e ->
        items = [TextContent (query_failure_prefix q +:+ exc_str e)]).
Proof.
  intros Hslot Hq.
  rewrite (query_tool_sound rt remote op q Hq).
  unfold run_query_tool, bind, try_except.
  rewrite (get_connection_existing remote s c Hslot).
  unfold query_body, bind, call_server.
  destruct (guard_total rt remote c "Isometric" s) as (shot & s1 & Hrun & Hmode & _).
  destruct (guard_wire rt remote c "Isometric" s) as (l & Hwire & Hl).
  rewrite Hrun in Hwire |- *. simpl in Hwire.
  destruct (remote (wire s1) (query q)) as [answer|e] eqn:Hanswer.
  - destruct (respond_eval rt (json_dumps rt answer) shot
                (set_wire (wire s1 ++ [query q]) s1)) as (s3 & -> & _ & _ & Hw & _).
    simpl in Hw.
    destruct (appended rt _ shot) as [extra|e]; simpl.
    + eexists _, _, l. split; [reflexivity|]. split; [done|].
      split; [by rewrite Hw, Hwire, <- app_assoc|]. split; [done|].
      intros e. by rewrite <- Hwire, Hanswer.
    + rewrite failure_item_eval. eexists _, _, l. split; [reflexivity|]. split; [done|].
      simpl. split; [by rewrite Hw, Hwire, <- app_assoc|]. split; [done|].
      intros e0. by rewrite <- Hwire, Hanswer.
  - rewrite failure_item_eval. eexists _, _, l. split; [reflexivity|]. split; [done|].
    simpl. split; [by rewrite Hwire, <- app_assoc|]. split; [done|].
    intros e0. rewrite <- Hwire, Hanswer. by intros [= <-].
Qed.

(** X29: when the guard gave a string or [None] and the request of
    [get_objects] or [get_object] is answered, the envelope is the
    [json.dumps] of the answer followed by the attachment for the
    screenshot taken beforehand. *)
Theorem query_handler_envelope op q s c (shot : option string) s1 answer :
  freecad_connection s = Some c ->
  query_tool_of op = Some q ->
  get_active_screenshot rt remote c "Isometric" s = (Return (optional_str shot), s1) ->
  remote (wire s1) (query q) = Return answer ->
  exists s',
    handle rt remote op s
      = (Return (TextContent (json_dumps rt answer)
                   :: attachment (only_text_feedback s) shot), s').
Proof.
  intros Hslot Hq Hguard Hanswer.
  rewrite (query_tool_sound rt remote op q Hq).
  unfold run_query_tool, bind, try_except.
  rewrite (get_connection_existing remote s c Hslot).
  unfold query_body, bind, call_server. rewrite Hguard, Hanswer.
  destruct (guard_total rt remote c "Isometric" s) as (shot' & s1' & Hrun & Hmode & _).
  rewrite Hguard in Hrun. injection Hrun as <- <-.
  destruct (respond_eval rt (json_dumps rt answer) (optional_str shot)
              (set_wire (wire s1 ++ [query q]) s1)) as (s3 & -> & _).
  simpl. rewrite appended_optional, Hmode. simpl. eauto.
Qed.

End Failures.


Lemma result_without_success_flag_example :
  let remote := scripted_remote probe_supported (Return png)
                  (Return (PDict [("message", PStr "done")])) in
  let s := connected_state false in
  exists s' l,
    handle example_runtime remote (ExecuteCode "print(1)") s
      = (Return [TextContent "Failed to execute code: 'success'"], s')
    /\ wire s' = wire s ++ ReqExecuteCode (UserCode "print(1)") :: l
    /\ guard_requests "Isometric" l.
Proof.
  exact (result_without_success_flag example_runtime
           (scripted_remote probe_supported (Return png)
              (Return (PDict [("message", PStr "done")])))
           (ExecuteCode "print(1)") _ (connected_state false)
           (mkConnection 0 "http://localhost:9875") (ReqExecuteCode (UserCode "print(1)"))
           [("message", PStr "done")] eq_refl eq_refl eq_refl eq_refl eq_refl).
Defined.


Lemma create_document_reported_failure_example :
  let remote := scripted_remote probe_supported (Return png) duplicate_name_result in
  let s := connected_state false in
  create_document example_runtime remote "Foo" s
    = (Return [TextContent "Failed to create document: DuplicateName"],
       set_wire [ReqPing; ReqCreateDocument "Foo"] s).
Proof.
  apply (create_document_reported_failure example_runtime
           (scripted_remote probe_supported (Return png) duplicate_name_result)
           "Foo" (connected_state false) (mkConnection 0 "http://localhost:9875")
           [("success", PBool false); ("error", PStr "DuplicateName")]
           (PBool false) (PStr "DuplicateName")); reflexivity.
Defined.

Lemma get_parts_list_answer_example :
  let remote := scripted_remote probe_supported (Return png) (Return (PList [])) in
  let s := connected_state false in
  get_parts_list example_runtime remote s
    = (Return [TextContent "No parts found in the parts library. You must add parts_library addon."],
       set_wire [ReqPing; ReqGetPartsList] s).
Proof.
  apply (get_parts_list_answer example_runtime
           (scripted_remote probe_supported (Return png) (Return (PList [])))
           (connected_state false) (mkConnection 0 "http://localhost:9875") (PList []));
    reflexivity.
Defined.


Lemma query_handler_assembly_example :
  let remote := scripted_remote probe_supported (Return png) timed_out in
  let s := connected_state false in
  exists items s' l,
    handle example_runtime remote (GetObjects "Doc") s = (Return items, s')
    /\ items <> []
    /\ wire s' = wire s ++ l ++ [ReqGetObjects "Doc"]
    /\ guard_requests "Isometric" l
    /\ (forall e, remote (wire s ++ l) (ReqGetObjects "Doc") = Raise e ->
        items = [TextContent ("Failed to get objects: " +:+ exc_str e)]).
Proof.
  exact (query_handler_assembly example_runtime
            (scripted_remote probe_supported (Return png) timed_out)
            (GetObjects "Doc") _ (connected_state false)
            (mkConnection 0 "http://localhost:9875") eq_refl eq_refl).
Defined.

Lemma query_handler_envelope_example :
  let remote := scripted_remote probe_supported (Return png) (Return (PList [])) in
  let s := connected_state false in
  exists s',
    handle example_runtime remote (GetObjects "Doc") s
      = (Return [TextContent "[]"; ImageContent png "image/png"], s').
Proof.
  exact (query_handler_envelope example_runtime
            (scripted_remote probe_supported (Return png) (Return (PList [])))
            (GetObjects "Doc") _ (connected_state false)
            (mkConnection 0 "http://localhost:9875") (Some "iVBORw0KGgo=") _ (PList [])
            eq_refl eq_refl eq_refl eq_refl).
Defined.

(** ** The points of a polyline *)

(** X25: [point_pairs] succeeds exactly when every point has both
    coordinates, and then gives one pair per point, in order, holding the
    values found under ["x"] and ["y"]. *)
Theorem point_pairs_spec points pairs :
  point_pairs points = Return pairs
  <-> Forall2 (fun p xy => point_lookup "x" p = Some (fst xy)
                           /\ point_lookup "y" p = Some (snd xy)) points pairs.
Proof.
  revert pairs. induction points as [|p rest IH]; intros pairs; simpl.
  - split.
    + intros [= <-]. constructor.
    + intros H. by inversion H.
  - unfold point_coordinate, outcome_bind.
    destruct (point_lookup "x" p) as [x|] eqn:Hx.
    2: { split; [done|]. intros H. inversion H as [|? ? ? ? [Hx' _]]; subst. congruence. }
    destruct (point_lookup "y" p) as [y|] eqn:Hy.
    2: { split; [done|]. intros H. inversion H as [|? ? ? ? [_ Hy']]; subst. congruence. }
    destruct (point_pairs rest) as [tail|e] eqn:Hrest.
    + split.
      * intros [= <-]. constructor; [done|]. by apply IH.
      * intros H. inversion H as [|? [x' y'] ? tail' [Hx' Hy'] Htail]; subst. simpl in *.
        apply IH in Htail. congruence.
    + split; [done|].
      intros H. inversion H as [|? ? ? tail' _ Htail]; subst.
      apply IH in Htail. done.
Qed.

Lemma point_pairs_missing points :
  Exists (fun p => point_lookup "x" p = None \/ point_lookup "y" p = None) points ->
  exists key,
    (key = "x" \/ key = "y")
    /\ point_pairs points = Raise (mkExc KeyError ("'" +:+ key +:+ "'")).
Proof.
  induction points as [|p rest IH]; intros Hbad; [by inversion Hbad|].
  simpl. unfold point_coordinate, outcome_bind.
  destruct (point_lookup "x" p) as [x|] eqn:Hx; [|exists "x"; auto].
  destruct (point_lookup "y" p) as [y|] eqn:Hy; [|exists "y"; auto].
  inversion Hbad as [? ? [H|H]|? ? Hrest]; subst; [congruence|congruence|].
  destruct (IH Hrest) as (key & Hkey & ->). eauto.
Qed.

Section Polyline.

Variable rt : Runtime.
Variable remote : Remote.

(** X26: [sketch_add_polyline] given a point that lacks a coordinate sends
    nothing to the remote: it returns the failure text naming the missing
    key and logs it, and the wire is as it was. *)
Theorem polyline_missing_coordinate doc_name sketch_name points closed s c :
  freecad_connection s = Some c ->
  Exists (fun p => point_lookup "x" p = None \/ point_lookup "y" p = None) points ->
  exists key,
    (key = "x" \/ key = "y")
    /\ handle rt remote (SketchAddPolyline doc_name sketch_name points closed) s
       = (Return [TextContent ("Failed to add polyline: '" +:+ key +:+ "'")],
          set_log (log s ++ [(ERROR, "Failed to add polyline: '" +:+ key +:+ "'")]) s).
Proof.
  intros Hslot Hbad. destruct (point_pairs_missing points Hbad) as (key & Hkey & Hraise).
  exists key. split; [done|].
  simpl. unfold sketch_add_polyline, bind, try_except.
  rewrite (get_connection_existing remote s c Hslot).
  unfold lift. rewrite Hraise. reflexivity.
Qed.

End Polyline.

Lemma polyline_missing_coordinate_example :
  let s := connected_state false in
  let points := [[("x", S754_zero false); ("y", S754_zero false)]; [("x", S754_zero false)]] in
  exists key,
    (key = "x" \/ key = "y")
    /\ handle example_runtime remote_unreachable (SketchAddPolyline "Doc" "Sketch" points true) s
       = (Return [TextContent ("Failed to add polyline: '" +:+ key +:+ "'")],
          set_log (log s ++ [(ERROR, "Failed to add polyline: '" +:+ key +:+ "'")]) s).
Proof.
  apply (polyline_missing_coordinate example_runtime remote_unreachable "Doc" "Sketch"
           [[("x", S754_zero false); ("y", S754_zero false)]; [("x", S754_zero false)]]
           true (connected_state false) (mkConnection 0 "http://localhost:9875")).
  - reflexivity.
  - apply Exists_cons_tl, Exists_cons_hd. right. reflexivity.
Defined.
